(** * The trading dashboard loader and presenter (ap.py)

    A shallow embedding of [load_data] and [display_data_block] of ap.py,
    and the properties of the column-selection policy, of the error
    handling and of the headline metric.

    The pandas and streamlit calls of the script are external: reading a
    file, parsing dates and formatting a number are taken as parameters of
    the development; the label-based frame operations the script relies on
    (column lookup, [set_index], [df[[c]]], [rename], [dropna], [tail]) are
    written out on a small frame model. *)

From Stdlib Require Import List Bool Arith NArith String Ascii Lia.
From Stdlib Require Import DecimalString.
Import ListNotations.

Set Implicit Arguments.

(** ** Python strings *)

(** A Python [str] is a sequence of Unicode code points. *)
Definition pystr := list N.

(** The code points of an ASCII literal. *)
Definition u (s : string) : pystr :=
  map N_of_ascii (list_ascii_of_string s).

Fixpoint str_eqb (s t : pystr) : bool :=
  match s, t with
  | [], [] => true
  | a :: s', b :: t' => N.eqb a b && str_eqb s' t'
  | _, _ => false
  end.

(** [s.startswith(p)] *)
Fixpoint startswith (p s : pystr) : bool :=
  match p, s with
  | [], _ => true
  | _ :: _, [] => false
  | a :: p', b :: s' => N.eqb a b && startswith p' s'
  end.

(** [sub in s] *)
Fixpoint contains (sub s : pystr) : bool :=
  startswith sub s ||
  match s with
  | [] => false
  | _ :: s' => contains sub s'
  end.

(** The code points [str.isspace] accepts; [str.strip()] removes them from
    both ends. *)
Definition is_space (c : N) : bool :=
  (((9 <=? c) && (c <=? 13)) || ((28 <=? c) && (c <=? 32))
   || (c =? 133) || (c =? 160) || (c =? 5760)
   || ((8192 <=? c) && (c <=? 8202))
   || (c =? 8232) || (c =? 8233) || (c =? 8239) || (c =? 8287)
   || (c =? 12288))%N.

Fixpoint lstrip (s : pystr) : pystr :=
  match s with
  | [] => []
  | c :: s' => if is_space c then lstrip s' else s
  end.

Definition rstrip (s : pystr) : pystr := rev (lstrip (rev s)).

Definition strip (s : pystr) : pystr := rstrip (lstrip s).

(** Truth value of a string in a condition: the empty string is false. *)
Definition truthy (s : pystr) : bool :=
  match s with
  | [] => false
  | _ :: _ => true
  end.

(** [x in xs] for a list of strings. *)
Definition str_in (x : pystr) (xs : list pystr) : bool :=
  existsb (str_eqb x) xs.




(** ** Exceptions and effects *)

(** The exceptions the script can meet, each with the text [str(e)] gives. *)
Inductive Exn : Type :=
| KeyError (key_repr : pystr)
| ValueError (msg : pystr)
| TypeError (msg : pystr)
| IndexError (msg : pystr)
| LibraryError (msg : pystr).

Definition str_of_exn (e : Exn) : pystr :=
  match e with
  | KeyError m | ValueError m | TypeError m | IndexError m
  | LibraryError m => m
  end.

(** Pictographs of the messages. *)
Definition SIREN : pystr := [128680%N].
Definition WARNING_SIGN : pystr := [9888%N; 65039%N].
Definition MEMO : pystr := [128221%N].

Section Dashboard.

(** ** Frames *)

(** [V]: the scalar values a parsed column holds, other than the missing
    value; [D]: the values of a datetime index. *)
Variable V : Type.
Variable D : Type.

(** A cell is a value or the missing value (NaN). *)
Definition cell : Type := option V.

Definition notna (c : cell) : bool :=
  match c with
  | Some _ => true
  | None => false
  end.

(** What [pd.read_csv] returns: the header names as they stand in the file
    and the data rows, under the default range index. *)
Record RawFrame : Type := {
  raw_columns : list pystr;
  raw_rows : list (list cell)
}.

(** A frame indexed by date: its value columns' labels and, in file order,
    each row's index entry and cells. *)
Record DataFrame : Type := {
  columns : list pystr;
  rows : list (D * list cell)
}.

(** The positions, in increasing order, of the labels satisfying [p]. *)
Fixpoint positions_from (i : nat) (p : pystr -> bool) (names : list pystr)
  : list nat :=
  match names with
  | [] => []
  | n :: ns =>
      if p n then i :: positions_from (S i) p ns
      else positions_from (S i) p ns
  end.

Definition positions (p : pystr -> bool) (names : list pystr) : list nat :=
  positions_from 0 p names.

(** The cell of a row at a position; a row shorter than the header reads
    as missing there. *)
Definition iloc (row : list cell) (j : nat) : cell := nth j row None.

Definition take (js : list nat) (row : list cell) : list cell :=
  map (iloc row) js.

(** [df[[c]]]: every column labelled [c], in order ([c] is a label of [df]
    wherever the script selects it). *)
Definition getitem_cols (df : DataFrame) (c : pystr) : DataFrame :=
  let js := positions (str_eqb c) (columns df) in
  {| columns := map (fun j => nth j (columns df) []) js;
     rows := map (fun r => (fst r, take js (snd r))) (rows df) |}.

(** [df.rename(columns={old: new})] *)
Definition rename (df : DataFrame) (old new : pystr) : DataFrame :=
  {| columns := map (fun c => if str_eqb c old then new else c) (columns df);
     rows := rows df |}.

(** [df.dropna()]: keeps the rows without a missing cell. *)
Definition dropna (df : DataFrame) : DataFrame :=
  {| columns := columns df;
     rows := filter (fun r => forallb notna (snd r)) (rows df) |}.

(** [df.columns = df.columns.str.strip()] *)
Definition strip_columns (df : DataFrame) : DataFrame :=
  {| columns := map strip (columns df); rows := rows df |}.

(** [df.empty]: some axis has length 0. *)
Definition empty (df : DataFrame) : bool :=
  (List.length (columns df) =? 0) || (List.length (rows df) =? 0).

(** [df.tail(n)] *)
Definition tail (n : nat) (df : DataFrame) : DataFrame :=
  {| columns := columns df;
     rows := skipn (List.length (rows df) - n) (rows df) |}.

(** ** Messages and the effect monad *)

(** The calls to the streamlit display surface. *)
Inductive Event : Type :=
| SidebarError (msg : pystr)
| SidebarCaption (msg : pystr)
| StWarning (msg : pystr)
| StError (msg : pystr)
| StInfo (msg : pystr)
| StContainer (border : bool)
| StSubheader (title : pystr)
| StMetric (label value : pystr)
| StLineChart (df : DataFrame) (use_container_width : bool) (height : nat)
| StExpander (label : pystr) (expanded : bool)
| StDataframe (df : DataFrame) (use_container_width : bool).

(** A computation displays messages and then returns or raises. *)
Definition M (A : Type) : Type := (list Event * (Exn + A))%type.

Definition ret {A} (a : A) : M A := ([], inr a).

Definition emit (ev : Event) : M unit := ([ev], inr tt).

Definition bind {A B} (m : M A) (f : A -> M B) : M B :=
  match m with
  | (l, inl e) => (l, inl e)
  | (l, inr a) => let (l', r) := f a in (l ++ l', r)
  end.

Definition lift {A} (r : Exn + A) : M A := ([], r).

(** [try: body except Exception as e: handler e] *)
Definition try_except {A} (body : M A) (handler : Exn -> M A) : M A :=
  match body with
  | (l, inl e) => let (l', r) := handler e in (l ++ l', r)
  | (l, inr a) => (l, inr a)
  end.

Notation "x <- m ;; k" := (bind m (fun x => k))
  (at level 61, m at next level, right associativity).
Notation "m ;; k" := (bind m (fun _ => k))
  (at level 61, right associativity).

(** ** The environment *)

(** [os.path.exists] *)
Variable path_exists : pystr -> bool.
(** [pd.read_csv] *)
Variable read_csv : pystr -> Exn + RawFrame.
(** [pd.to_datetime] on a column *)
Variable to_datetime : list cell -> Exn + list D.
(** [format(value, spec)] on a scalar *)
Variable format_value : cell -> pystr -> Exn + pystr.

(** ** load_data *)

(** Lines 41-42: [df['Date'] = pd.to_datetime(df['Date'])] and
    [df = df.set_index('Date')]. The lookup raises [KeyError] when no
    header name is exactly Date; names are compared as they stand in the
    file. Were the name borne by several columns the lookup would give a
    frame, which [to_datetime] refuses. *)
Definition standardize_date (df : RawFrame) : Exn + DataFrame :=
  match positions (str_eqb (u "Date")) (raw_columns df) with
  | [] => inl (KeyError (u "'Date'"))
  | [j] =>
      match to_datetime (map (fun r => iloc r j) (raw_rows df)) with
      | inl e => inl e
      | inr dates =>
          let others :=
            positions (fun n => negb (str_eqb (u "Date") n)) (raw_columns df) in
          inr {| columns := map (fun k => nth k (raw_columns df) []) others;
                 rows := combine dates (map (take others) (raw_rows df)) |}
      end
  | _ :: _ :: _ => inl (ValueError (u "cannot assemble with duplicate keys"))
  end.

Definition mentions_cumulative (col : pystr) : bool :=
  contains (u "Cumulative") col || contains (u "CUMULATIVE") col.

Definition mentions_daily (col : pystr) : bool :=
  contains (u "Daily") col || contains (u "DAILY") col.

(** Lines 77-83, "Prepare final DataFrame". *)
Definition prepare_final (df : DataFrame) (selected_col : option pystr)
    (new_col_name : pystr) : M (option DataFrame) :=
  match selected_col with
  | Some c =>
      if truthy c then
        ret (Some (dropna (rename (getitem_cols df c) c new_col_name)))
      else ret None
  | None => ret None
  end.

Definition file_name_of (data_type base_type : pystr) : pystr :=
  data_type ++ u " - ETH - " ++ base_type
  ++ u " - Records - 20250407 - 20251021.csv".

(** The body of the [try] block, lines 37-83. For a data type outside the
    four kinds no branch runs: [selected_col] stays [None] and
    [new_col_name], which is then unbound, is not read. *)
Definition load_body (data_type file_name : pystr) : M (option DataFrame) :=
  df <- lift (read_csv file_name) ;;
  emit (SidebarCaption (u "Loaded: " ++ file_name)) ;;
  df <- lift (standardize_date df) ;;
  let df := strip_columns df in
  if str_in data_type [u "PnL"; u "Fee"; u "Funding"] then
    let cumulative_cols := filter mentions_cumulative (columns df) in
    match cumulative_cols with
    | c :: _ => prepare_final df (Some c) (data_type ++ u " Cumulative")
    | [] =>
        let daily_cols := filter mentions_daily (columns df) in
        match daily_cols with
        | c :: _ => prepare_final df (Some c) (data_type ++ u " Daily")
        | [] =>
            emit (StWarning (WARNING_SIGN
                    ++ u " No 'Cumulative' or 'Daily' columns found in "
                    ++ file_name)) ;;
            ret None
        end
    end
  else if str_eqb data_type (u "Volume") then
    let daily_cols := filter mentions_daily (columns df) in
    match daily_cols with
    | c :: _ => prepare_final df (Some c) (data_type ++ u " Daily")
    | [] =>
        emit (StWarning (WARNING_SIGN ++ u " No 'Daily' columns found in "
                ++ file_name)) ;;
        ret None
    end
  else prepare_final df None [].

Definition load_data (data_type base_type : pystr) : M (option DataFrame) :=
  let file_name := file_name_of data_type base_type in
  if negb (path_exists file_name) then
    emit (SidebarError (SIREN ++ u " File missing: " ++ file_name
            ++ u " not found")) ;;
    ret None
  else
    try_except (load_body data_type file_name)
      (fun e =>
         emit (StError (u "Error processing " ++ file_name ++ u ": "
                 ++ str_of_exn e)) ;;
         ret None).

(** The file of a metric and a denomination exists, [read_csv] gives
    [raw] for it, and the date column of [raw] is standardized to [df]
    (whose labels are still untrimmed). *)
Definition parsed (data_type base_type : pystr) (raw : RawFrame)
    (df : DataFrame) : Prop :=
  path_exists (file_name_of data_type base_type) = true /\
  read_csv (file_name_of data_type base_type) = inr raw /\
  standardize_date raw = inr df.

(** The frame [prepare_final] returns for the label [c] renamed [new]. *)
Definition selection (df : DataFrame) (c new : pystr) : DataFrame :=
  dropna (rename (getitem_cols df c) c new).

(** The labels among which the value column is chosen: the header names
    other than the date column's, trimmed. *)
Definition trimmed_names (raw : RawFrame) : list pystr :=
  map strip
    (filter (fun n => negb (str_eqb (u "Date") n)) (raw_columns raw)).

(** The label the choice of lines 48-75 settles on, if any. *)
Definition selected_label (data_type : pystr) (names : list pystr)
  : option pystr :=
  if str_in data_type [u "PnL"; u "Fee"; u "Funding"] then
    match find mentions_cumulative names with
    | Some c => Some c
    | None => find mentions_daily names
    end
  else if str_eqb data_type (u "Volume") then find mentions_daily names
  else None.

(** The positions, in the header of the file, of the columns other than
    the date column whose trimmed name is [c]: the columns [df[[c]]]
    selects. *)
Definition selected_positions (raw : RawFrame) (c : pystr) : list nat :=
  positions (fun n => negb (str_eqb (u "Date") n) && str_eqb c (strip n))
    (raw_columns raw).

(** The row has a value in each of the columns at [js]. *)
Definition defined_at (js : list nat) (row : list cell) : bool :=
  forallb notna (take js row).

(** ** display_data_block *)

(** What [df[col_name].iloc[-1]] evaluates to: a scalar when one column
    bears the label, the last row of a sub-frame when several do. *)
Inductive pyvalue : Type :=
| Scalar (c : cell)
| RowSeries (cs : list cell).

(** [df.columns[0]] *)
Definition first_column (df : DataFrame) : Exn + pystr :=
  match columns df with
  | c :: _ => inr c
  | [] => inl (IndexError
                 (u "index 0 is out of bounds for axis 0 with size 0"))
  end.

(** [df[col_name].iloc[-1]] *)
Definition latest (df : DataFrame) (col_name : pystr) : Exn + pyvalue :=
  match positions (str_eqb col_name) (columns df) with
  | [] => inl (KeyError (u "'" ++ col_name ++ u "'"))
  | js =>
      match rev (rows df) with
      | [] => inl (IndexError (u "single positional indexer is out-of-bounds"))
      | r :: _ =>
          match js with
          | [j] => inr (Scalar (iloc (snd r) j))
          | _ => inr (RowSeries (take js (snd r)))
          end
      end
  end.

(** [f"{value:{spec}}"] *)
Definition py_format (v : pyvalue) (spec : pystr) : Exn + pystr :=
  match v with
  | Scalar c => format_value c spec
  | RowSeries _ =>
      inl (TypeError (u "unsupported format string passed to Series.__format__"))
  end.

Definition display_data_block (title : pystr) (df : option DataFrame)
    (unit : pystr) : M Datatypes.unit :=
  match df with
  | None => emit (StInfo (u "No data available for " ++ title ++ u "."))
  | Some df =>
      if empty df then
        emit (StInfo (u "No data available for " ++ title ++ u "."))
      else
        emit (StContainer true) ;;
        emit (StSubheader title) ;;
        col_name <- lift (first_column df) ;;
        latest_value <- lift (latest df col_name) ;;
        let format_str :=
          if contains (u "Cumulative") col_name then u ".2f" else u ".4f" in
        shown <- lift (py_format latest_value format_str) ;;
        emit (StMetric (u "Latest " ++ col_name) (shown ++ u " " ++ unit)) ;;
        emit (StLineChart df true 250) ;;
        emit (StExpander (MEMO ++ u " View recent raw data") false) ;;
        emit (StDataframe (tail 7 df) true)
  end.

End Dashboard.

Arguments SidebarError {V D} msg.
Arguments SidebarCaption {V D} msg.
Arguments StWarning {V D} msg.
Arguments StError {V D} msg.
Arguments StInfo {V D} msg.
Arguments StContainer {V D} border.
Arguments StSubheader {V D} title.
Arguments StMetric {V D} label value.
Arguments StExpander {V D} label expanded.
Arguments u : simpl never.
Arguments file_name_of : simpl never.
Arguments str_in : simpl never.
Arguments str_eqb : simpl nomatch.

(** [s] is obtained from [l] by leaving entries out, the order kept. *)
Inductive subsequence (A : Type) : list A -> list A -> Prop :=
| subsequence_nil : subsequence [] []
| subsequence_skip x s l : subsequence s l -> subsequence s (x :: l)
| subsequence_keep x s l : subsequence s l -> subsequence (x :: s) (x :: l).

(** ** The page

    The top level of the script, lines 5-13 and 119-192: the page set-up,
    the two sections and their eight blocks. *)

(** Pictographs of the titles. *)
Definition BAR_CHART : pystr := [128202%N].
Definition BANKNOTE : pystr := [128181%N].
Definition CHART_UP : pystr := [128200%N].
Definition MONEY_BAG : pystr := [128176%N].
Definition MONEY_WINGS : pystr := [128184%N].
Definition COIN : pystr := [129689%N].

(** Lines 121-126. *)
Definition data_map : list (pystr * pystr) :=
  [ (u "PnL", u "Profit and Loss (PnL)");
    (u "Volume", u "Trading Volume (Volume)");
    (u "Fee", u "Transaction Fees (Fee)");
    (u "Funding", u "Funding Costs (Funding)") ].

(** [d[key]] on a dictionary with string keys. *)
Fixpoint getitem (d : list (pystr * pystr)) (key : pystr) : Exn + pystr :=
  match d with
  | [] => inl (KeyError (u "'" ++ key ++ u "'"))
  | (k, v) :: d' => if str_eqb key k then inr v else getitem d' key
  end.

Section Page.

Variables V D : Type.
Variable path_exists : pystr -> bool.
Variable read_csv : pystr -> Exn + RawFrame V.
Variable to_datetime : list (cell V) -> Exn + list D.
Variable format_value : cell V -> pystr -> Exn + pystr.

(** What the page receives: the layout calls of the top level, and the
    calls made by a block together with the container that is active
    then ([None]: the page itself, [Some i]: the column [col_i]). *)
Inductive PageEvent : Type :=
| SetPageConfig (page_title layout initial_sidebar_state : pystr)
| StTitle (body : pystr)
| StDivider
| StHeader (body : pystr)
| StWrite (body : pystr)
| StColumns (spec : nat) (gap : pystr)
| StMarkdown (body : pystr)
| Within (place : option nat) (e : Event V D).

Definition Page (A : Type) : Type := (list PageEvent * (Exn + A))%type.

Definition page_ret {A} (a : A) : Page A := ([], inr a).

Definition page_emit (ev : PageEvent) : Page unit := ([ev], inr tt).

Definition page_bind {A B} (m : Page A) (f : A -> Page B) : Page B :=
  match m with
  | (l, inl e) => (l, inl e)
  | (l, inr a) => let (l', r) := f a in (l ++ l', r)
  end.

(** Running a computation of a block in a container. *)
Definition within {A} (place : option nat) (m : M V D A) : Page A :=
  (map (Within place) (fst m), snd m).

Notation "x <- m ;; k" := (page_bind m (fun x => k))
  (at level 61, m at next level, right associativity).
Notation "m ;; k" := (page_bind m (fun _ => k))
  (at level 61, right associativity).

(** One call [display_data_block(f"<icon> {data_map[key]}",
    load_data(key, base_type), unit=unit)]: the title is built, the file
    is loaded, the block is displayed. *)
Definition render (place : option nat) (icon key base_type unit : pystr)
  : Page Datatypes.unit :=
  name <- within place (@lift V D _ (getitem data_map key)) ;;
  df <- within place (load_data path_exists read_csv to_datetime
                        key base_type) ;;
  within place
    (display_data_block format_value (icon ++ u " " ++ name) df unit).

Definition dashboard : Page unit :=
  page_emit (SetPageConfig
               (u "USDBased & CoinBased Trading Data Dashboard")
               (u "wide") (u "expanded")) ;;
  page_emit (StTitle (BAR_CHART
                      ++ u " Trading Strategy Data Analytics Dashboard")) ;;
  page_emit StDivider ;;
  page_emit (StHeader (BANKNOTE ++ u " USDBased - USD Denominated Data")) ;;
  page_emit StDivider ;;
  render None CHART_UP (u "PnL") (u "USDBased") (u "$") ;;
  page_emit (StWrite []) ;;
  page_emit (StColumns 3 (u "medium")) ;;
  render (Some 1) MONEY_BAG (u "Fee") (u "USDBased") (u "$") ;;
  render (Some 2) MONEY_WINGS (u "Funding") (u "USDBased") (u "$") ;;
  render (Some 3) BAR_CHART (u "Volume") (u "USDBased") (u "$") ;;
  page_emit (StMarkdown (u "---")) ;;
  page_emit (StWrite []) ;;
  page_emit (StHeader (COIN ++ u " CoinBased - Coin Denominated Data")) ;;
  page_emit StDivider ;;
  render None CHART_UP (u "PnL") (u "CoinBased") (u "ETH") ;;
  page_emit (StWrite []) ;;
  page_emit (StColumns 3 (u "medium")) ;;
  render (Some 4) MONEY_BAG (u "Fee") (u "CoinBased") (u "ETH") ;;
  render (Some 5) MONEY_WINGS (u "Funding") (u "CoinBased") (u "ETH") ;;
  render (Some 6) BAR_CHART (u "Volume") (u "CoinBased") (u "ETH").

(** Statements run one after the other, up to the first that raises. *)
Fixpoint sequence (ms : list (Page unit)) : Page unit :=
  match ms with
  | [] => page_ret tt
  | m :: rest =>
      match rest with
      | [] => m
      | _ :: _ => m ;; sequence rest
      end
  end.

(** The statements of the top level, in order. *)
Definition statements : list (Page unit) :=
  [ page_emit (SetPageConfig
                 (u "USDBased & CoinBased Trading Data Dashboard")
                 (u "wide") (u "expanded"));
    page_emit (StTitle (BAR_CHART
                        ++ u " Trading Strategy Data Analytics Dashboard"));
    page_emit StDivider;
    page_emit (StHeader (BANKNOTE ++ u " USDBased - USD Denominated Data"));
    page_emit StDivider;
    render None CHART_UP (u "PnL") (u "USDBased") (u "$");
    page_emit (StWrite []);
    page_emit (StColumns 3 (u "medium"));
    render (Some 1) MONEY_BAG (u "Fee") (u "USDBased") (u "$");
    render (Some 2) MONEY_WINGS (u "Funding") (u "USDBased") (u "$");
    render (Some 3) BAR_CHART (u "Volume") (u "USDBased") (u "$");
    page_emit (StMarkdown (u "---"));
    page_emit (StWrite []);
    page_emit (StHeader (COIN ++ u " CoinBased - Coin Denominated Data"));
    page_emit StDivider;
    render None CHART_UP (u "PnL") (u "CoinBased") (u "ETH");
    page_emit (StWrite []);
    page_emit (StColumns 3 (u "medium"));
    render (Some 4) MONEY_BAG (u "Fee") (u "CoinBased") (u "ETH");
    render (Some 5) MONEY_WINGS (u "Funding") (u "CoinBased") (u "ETH");
    render (Some 6) BAR_CHART (u "Volume") (u "CoinBased") (u "ETH") ].

(** The frame a block is given: what [load_data] returns for it. *)
Definition loaded_frame (key base_type : pystr) : option (DataFrame V D) :=
  match snd (load_data path_exists read_csv to_datetime key base_type) with
  | inr df => df
  | inl _ => None
  end.

(** The title of a block. *)
Definition title_of (icon key : pystr) : pystr :=
  match getitem data_map key with
  | inr name => icon ++ u " " ++ name
  | inl _ => []
  end.

(** How the display of a block ends. *)
Definition block_outcome
    (b : option nat * pystr * pystr * pystr * pystr) : Exn + unit :=
  let '(_, icon, key, base_type, unit) := b in
  snd (display_data_block format_value (title_of icon key)
         (loaded_frame key base_type) unit).

(** What a block shows when its file is missing. *)
Definition missing_block (place : option nat) (icon key base_type : pystr)
  : list PageEvent :=
  [ Within place
      (SidebarError (SIREN ++ u " File missing: "
                     ++ file_name_of key base_type ++ u " not found"));
    Within place
      (StInfo (u "No data available for " ++ title_of icon key ++ u ".")) ].

(** The first exception of a sequence of outcomes, if there is one. *)
Fixpoint first_error (outcomes : list (Exn + unit)) : Exn + unit :=
  match outcomes with
  | [] => inr tt
  | inl e :: _ => inl e
  | inr _ :: rest => first_error rest
  end.

(** The eight blocks of the page, in the order of the script: container,
    pictograph, metric, denomination and unit. *)
Definition blocks : list (option nat * pystr * pystr * pystr * pystr) :=
  [ (None, CHART_UP, u "PnL", u "USDBased", u "$");
    (Some 1, MONEY_BAG, u "Fee", u "USDBased", u "$");
    (Some 2, MONEY_WINGS, u "Funding", u "USDBased", u "$");
    (Some 3, BAR_CHART, u "Volume", u "USDBased", u "$");
    (None, CHART_UP, u "PnL", u "CoinBased", u "ETH");
    (Some 4, MONEY_BAG, u "Fee", u "CoinBased", u "ETH");
    (Some 5, MONEY_WINGS, u "Funding", u "CoinBased", u "ETH");
    (Some 6, BAR_CHART, u "Volume", u "CoinBased", u "ETH") ].

End Page.

Arguments StDivider {V D}.
Arguments SetPageConfig {V D} page_title layout initial_sidebar_state.
Arguments StTitle {V D} body.
Arguments StHeader {V D} body.
Arguments StWrite {V D} body.
Arguments StColumns {V D} spec gap.
Arguments StMarkdown {V D} body.

(** ** A sample directory

    Concrete values, dates, parser, formatter and files, on which the
    statements below are evaluated. *)
Module Sample.

(** Numbers are kept in ten-thousandths; text is kept as it is. *)
Inductive scalar : Type :=
| Num (ten_thousandths : N)
| Text (s : pystr).

(** A date as the number yyyymmdd; [None] is NaT. *)
Definition date : Type := option N.

Definition is_digit (c : N) : bool := ((48 <=? c) && (c <=? 57))%N.

Definition digits_value (s : pystr) : N :=
  fold_left (fun acc c => (10 * acc + (c - 48))%N) s 0%N.

(** Reads yyyy-mm-dd. *)
Definition parse_iso (s : pystr) : option N :=
  match s with
  | [y1; y2; y3; y4; d1; m1; m2; d2; a1; a2] =>
      if forallb is_digit [y1; y2; y3; y4; m1; m2; a1; a2]
         && (d1 =? 45)%N && (d2 =? 45)%N
      then Some (digits_value [y1; y2; y3; y4; m1; m2; a1; a2])
      else None
  | _ => None
  end.

Definition parse_cell (c : option scalar) : Exn + date :=
  match c with
  | None => inr None
  | Some (Text s) =>
      match parse_iso s with
      | Some d => inr (Some d)
      | None => inl (ValueError (u "Unknown datetime string format"))
      end
  | Some (Num _) => inl (ValueError (u "Unknown datetime string format"))
  end.

Fixpoint to_datetime (col : list (option scalar)) : Exn + list date :=
  match col with
  | [] => inr []
  | c :: cs =>
      match parse_cell c with
      | inl e => inl e
      | inr d =>
          match to_datetime cs with
          | inl e => inl e
          | inr ds => inr (d :: ds)
          end
      end
  end.

Definition decimal (n : N) : pystr :=
  u (NilZero.string_of_uint (N.to_uint n)).

Definition pad_zeros (k : nat) (s : pystr) : pystr :=
  repeat 48%N (k - List.length s) ++ s.

(** Fixed-point text of a number with 2 or 4 decimals. *)
Definition format_value (c : option scalar) (spec : pystr)
  : Exn + pystr :=
  match c with
  | None => inr (u "nan")
  | Some (Text _) =>
      inl (ValueError (u "Unknown format code 'f' for object of type 'str'"))
  | Some (Num x) =>
      if str_eqb spec (u ".4f") then
        inr (decimal (x / 10000) ++ u "." ++ pad_zeros 4 (decimal (x mod 10000)))
      else if str_eqb spec (u ".2f") then
        let h := ((x + 50) / 100)%N in
        inr (decimal (h / 100) ++ u "." ++ pad_zeros 2 (decimal (h mod 100)))
      else inl (ValueError (u "Invalid format specifier"))
  end.

Definition num (x : N) : option scalar := Some (Num x).
Definition txt (s : string) : option scalar := Some (Text (u s)).
Definition nan : option scalar := None.

Definition records (data_type base_type : string) : pystr :=
  file_name_of (u data_type) (u base_type).

(** The files of the directory. *)
Definition files : list (pystr * RawFrame scalar) :=
  [ (records "PnL" "USDBased",
     {| raw_columns := [u "Date"; u "PnL Cumulative ($)"; u "Ignored"];
        raw_rows := [ [txt "2025-04-07"; num 1005000; txt "x"];
                      [txt "2025-04-08"; num 1022500; txt "y"] ] |});
    (records "Fee" "USDBased",
     {| raw_columns := [u "Date"; u "fee cumulative"; u "fee daily"];
        raw_rows := [ [txt "2025-04-07"; num 12000; num 12000] ] |});
    (records "Funding" "USDBased",
     {| raw_columns := [u " Date "; u "Funding Cumulative"];
        raw_rows := [ [txt "2025-04-07"; num 30000] ] |});
    (records "Volume" "USDBased",
     {| raw_columns := [u "Date"; u "Volume Cumulative"];
        raw_rows := [ [txt "2025-04-07"; num 50000000] ] |});
    (records "Volume" "CoinBased",
     {| raw_columns := [u "Date"; u "Volume Cumulative"; u " Volume Daily "];
        raw_rows := [ [txt "2025-04-07"; num 70000; nan];
                      [txt "2025-04-08"; num 150000; num 80000] ] |});
    (records "Fee" "CoinBased",
     {| raw_columns := [u "Date"; u "Fee DAILY (ETH)"; u "Trades"];
        raw_rows := [ [txt "2025-04-07"; num 12; num 30000];
                      [txt "2025-04-08"; num 15; num 20000] ] |});
    (records "Funding" "CoinBased",
     {| raw_columns := [u "Date"; u "Funding Cumulative"];
        raw_rows := [ [txt "2025-04-09"; num 900];
                      [txt "2025-04-07"; num 400];
                      [txt "2025-04-10"; nan];
                      [txt "2025-04-08"; num 700] ] |});
    (records "Spread" "USDBased",
     {| raw_columns := [u "Date"; u "Spread Cumulative"; u "Spread Daily"];
        raw_rows := [ [txt "2025-04-07"; num 100; num 100] ] |});
    (records "PnL" "Paired",
     {| raw_columns := [u "Date"; u "PnL Cumulative"; u "PnL Cumulative "];
        raw_rows := [ [txt "2025-04-07"; num 10000; nan];
                      [txt "2025-04-08"; num 20000; num 5000] ] |});
    (records "Fee" "Paired",
     {| raw_columns := [u "Date"; u "Fee"; u "Turnover"];
        raw_rows := [ [txt "2025-04-07"; num 10000; num 20000] ] |});
    (records "Funding" "Paired",
     {| raw_columns := [u "Date"; u "Funding Cumulative"];
        raw_rows := [ [txt "07/04/2025 ??"; num 10000] ] |}) ].

Fixpoint lookup (name : pystr) (fs : list (pystr * RawFrame scalar))
  : option (RawFrame scalar) :=
  match fs with
  | [] => None
  | (n, f) :: fs' => if str_eqb name n then Some f else lookup name fs'
  end.

(** Every name exists but the asset-based PnL records; a file that exists
    and is not listed is unreadable. *)
Definition path_exists (name : pystr) : bool :=
  negb (str_eqb name (records "PnL" "CoinBased")).

Definition read_csv (name : pystr) : Exn + RawFrame scalar :=
  match lookup name files with
  | Some f => inr f
  | None => inl (LibraryError (u "No columns to parse from file"))
  end.

(** The table of a listed file and its date-indexed frame. *)
Definition raw_of (data_type base_type : string) : RawFrame scalar :=
  match read_csv (records data_type base_type) with
  | inr f => f
  | inl _ => {| raw_columns := []; raw_rows := [] |}
  end.

Definition dated (data_type base_type : string) : DataFrame scalar date :=
  match standardize_date to_datetime (raw_of data_type base_type) with
  | inr df => df
  | inl _ => {| columns := []; rows := [] |}
  end.

Definition load_data
  : pystr -> pystr -> M scalar date (option (DataFrame scalar date)) :=
  load_data path_exists read_csv to_datetime.

Definition loaded (data_type base_type : string)
  : Event scalar date :=
  SidebarCaption (u "Loaded: " ++ records data_type base_type).

Definition display_data_block
  : pystr -> option (DataFrame scalar date) -> pystr -> M scalar date unit :=
  display_data_block format_value.

Definition dashboard : Page scalar date unit :=
  dashboard path_exists read_csv to_datetime format_value.

End Sample.


(** ** Two more directories

    One without any file, and one whose files all hold text where numbers
    are expected. *)
Module Deserted.

Definition path_exists (name : pystr) : bool := false.

Definition dashboard : Page Sample.scalar Sample.date unit :=
  dashboard path_exists Sample.read_csv Sample.to_datetime
    Sample.format_value.

End Deserted.

Module Textual.

Definition path_exists (name : pystr) : bool := true.

Definition read_csv (name : pystr) : Exn + RawFrame Sample.scalar :=
  inr {| raw_columns := [u "Date"; u "Total Cumulative"; u "Total Daily"];
         raw_rows := [ [Sample.txt "2025-04-07"; Sample.txt "n/a";
                        Sample.txt "n/a"] ] |}.

Definition load_data
  : pystr -> pystr ->
    M Sample.scalar Sample.date (option (DataFrame Sample.scalar Sample.date))
  := load_data path_exists read_csv Sample.to_datetime.

Definition dashboard : Page Sample.scalar Sample.date unit :=
  dashboard path_exists read_csv Sample.to_datetime Sample.format_value.

End Textual.

(** ** A directory with other spellings

    Columns named in lower case, and a Volume file whose columns carry
    both words. *)
Module Mixed.

Definition path_exists (name : pystr) : bool := true.

Definition read_csv (name : pystr) : Exn + RawFrame Sample.scalar :=
  if str_eqb name (Sample.records "Volume" "USDBased") then
    inr {| raw_columns := [u "Date"; u "Cumulative A";
                           u "Cumulative Daily B"; u "Daily C"];
           raw_rows := [ [Sample.txt "2025-04-07"; Sample.num 10000;
                          Sample.num 20000; Sample.num 30000];
                         [Sample.txt "2025-04-08"; Sample.num 40000;
                          Sample.num 50000; Sample.num 60000] ] |}
  else if str_eqb name (Sample.records "Volume" "CoinBased") then
    inr {| raw_columns := [u "Date"; u "volume daily"];
           raw_rows := [ [Sample.txt "2025-04-07"; Sample.num 10000] ] |}
  else if str_eqb name (Sample.records "PnL" "USDBased") then
    inr {| raw_columns := [u "Date"; u "cumulative pnl"];
           raw_rows := [ [Sample.txt "2025-04-07"; Sample.num 10000] ] |}
  else
    inr {| raw_columns := [u "Date"; u "daily pnl"];
           raw_rows := [ [Sample.txt "2025-04-07"; Sample.num 10000] ] |}.

Definition raw_of (data_type base_type : string) : RawFrame Sample.scalar :=
  match read_csv (Sample.records data_type base_type) with
  | inr f => f
  | inl _ => {| raw_columns := []; raw_rows := [] |}
  end.

Definition dated (data_type base_type : string)
  : DataFrame Sample.scalar Sample.date :=
  match standardize_date Sample.to_datetime (raw_of data_type base_type) with
  | inr df => df
  | inl _ => {| columns := []; rows := [] |}
  end.

Definition load_data
  : pystr -> pystr ->
    M Sample.scalar Sample.date (option (DataFrame Sample.scalar Sample.date))
  := load_data path_exists read_csv Sample.to_datetime.

End Mixed.

(** * Properties *)

(** ** Strings *)

Lemma str_eqb_refl (s : pystr) : str_eqb s s = true.
Proof.
  induction s as [|a s IH]; simpl; [reflexivity|].
  now rewrite N.eqb_refl.
Qed.

Lemma str_eqb_eq (s t : pystr) : str_eqb s t = true <-> s = t.
Proof.
  split.
  - revert t; induction s as [|a s IH]; intros [|b t] H; simpl in H;
      try discriminate; [reflexivity|].
    apply andb_true_iff in H as [Hab Hst].
    apply N.eqb_eq in Hab. apply IH in Hst. now subst.
  - intros ->. apply str_eqb_refl.
Qed.

Lemma str_eqb_neq (s t : pystr) : str_eqb s t = false <-> s <> t.
Proof.
  rewrite <- str_eqb_eq. destruct (str_eqb s t); split; congruence.
Qed.

Lemma str_in_In (x : pystr) (xs : list pystr) :
  str_in x xs = true <-> In x xs.
Proof.
  unfold str_in. rewrite existsb_exists. split.
  - intros (y & Hy & E). apply str_eqb_eq in E. now subst.
  - intros H. exists x. split; [assumption | apply str_eqb_refl].
Qed.

Lemma mentions_cumulative_truthy (c : pystr) :
  mentions_cumulative c = true -> truthy c = true.
Proof.
  unfold mentions_cumulative. intros H. destruct c; [discriminate | reflexivity].
Qed.

Lemma mentions_daily_truthy (c : pystr) :
  mentions_daily c = true -> truthy c = true.
Proof.
  unfold mentions_daily. intros H. destruct c; [discriminate | reflexivity].
Qed.

(** ** Lists of labels *)

Lemma filter_head (p : pystr -> bool) (l : list pystr) :
  hd_error (filter p l) = find p l.
Proof.
  induction l as [|x l IH]; simpl; [reflexivity|].
  destruct (p x); simpl; auto.
Qed.

Lemma filter_nil_find (p : pystr -> bool) (l : list pystr) :
  filter p l = [] <-> find p l = None.
Proof.
  rewrite <- filter_head. destruct (filter p l); simpl; split; congruence.
Qed.

Lemma filter_cons_find (p : pystr -> bool) (l : list pystr) c :
  find p l = Some c -> exists rest, filter p l = c :: rest.
Proof.
  rewrite <- filter_head. destruct (filter p l) as [|x rest]; simpl;
    [discriminate|]. intros [= ->]. now exists rest.
Qed.

Lemma positions_from_shift (p : pystr -> bool) (names : list pystr) i :
  positions_from (S i) p names = map S (positions_from i p names).
Proof.
  revert i; induction names as [|n ns IH]; intros i; simpl; [reflexivity|].
  destruct (p n); simpl; now rewrite IH.
Qed.

Lemma positions_cons (p : pystr -> bool) n ns :
  positions p (n :: ns) =
  if p n then 0 :: map S (positions p ns) else map S (positions p ns).
Proof.
  unfold positions. simpl. now rewrite positions_from_shift.
Qed.

Lemma nth_positions (p : pystr -> bool) (names : list pystr) :
  map (fun k => nth k names []) (positions p names) = filter p names.
Proof.
  induction names as [|n ns IH]; [reflexivity|].
  rewrite positions_cons. simpl.
  destruct (p n); simpl; rewrite map_map; simpl; now rewrite IH.
Qed.

Lemma positions_length (p : pystr -> bool) (names : list pystr) :
  List.length (positions p names) = List.length (filter p names).
Proof.
  rewrite <- nth_positions. now rewrite length_map.
Qed.

Lemma positions_some (p : pystr -> bool) (names : list pystr) n :
  In n names -> p n = true -> positions p names <> [].
Proof.
  intros Hn Hp E.
  assert (L : List.length (filter p names) = 0)
    by now rewrite <- positions_length, E.
  apply length_zero_iff_nil in L.
  assert (I : In n (filter p names)) by now apply filter_In.
  rewrite L in I. contradiction.
Qed.

Lemma positions_In (c : pystr) (names : list pystr) :
  In c names -> positions (str_eqb c) names <> [].
Proof.
  intros H E.
  assert (L : List.length (filter (str_eqb c) names) = 0)
    by now rewrite <- positions_length, E.
  apply length_zero_iff_nil in L.
  assert (In c (filter (str_eqb c) names))
    by (apply filter_In; split; [assumption | apply str_eqb_refl]).
  rewrite L in H0. contradiction.
Qed.

Lemma map_fst_combine (A B : Type) (a : list A) (b : list B) :
  List.length a = List.length b -> map fst (combine a b) = a.
Proof.
  revert b; induction a as [|x a IH]; intros [|y b] L; simpl in *;
    try discriminate; [reflexivity|].
  f_equal. apply IH. lia.
Qed.

Lemma positions_sat (p : pystr -> bool) (names : list pystr) j :
  In j (positions p names) -> p (nth j names []) = true.
Proof.
  intros H.
  assert (I : In (nth j names []) (filter p names)).
  { rewrite <- nth_positions.
    apply (in_map (fun k => nth k names [])). exact H. }
  now apply filter_In in I.
Qed.

(** ** Frames and the loader *)

Section Properties.

Variables V D : Type.
Variable path_exists : pystr -> bool.
Variable read_csv : pystr -> Exn + RawFrame V.
Variable to_datetime : list (cell V) -> Exn + list D.
Variable format_value : cell V -> pystr -> Exn + pystr.

Notation frame := (DataFrame V D).
Notation load := (load_data path_exists read_csv to_datetime).
Notation parsed_as := (parsed path_exists read_csv to_datetime).
Notation caption f := (SidebarCaption (V := V) (D := D) (u "Loaded: " ++ f)).

Lemma selection_columns (df : frame) (c new : pystr) :
  columns (selection df c new) =
  map (fun _ => new) (positions (str_eqb c) (columns df)).
Proof.
  unfold selection, dropna, rename, getitem_cols; simpl.
  rewrite map_map. apply map_ext_in. intros j Hj.
  apply positions_sat in Hj.
  apply str_eqb_eq in Hj. rewrite <- Hj. now rewrite str_eqb_refl.
Qed.

Lemma selection_labelled (df : frame) (c new : pystr) :
  In c (columns df) ->
  columns (selection df c new) <> [] /\
  Forall (eq new) (columns (selection df c new)).
Proof.
  intros Hin. rewrite selection_columns. split.
  - apply positions_In in Hin.
    destruct (positions (str_eqb c) (columns df)); [congruence | discriminate].
  - apply Forall_forall. intros x Hx. apply in_map_iff in Hx as (j & E & _).
    now symmetry.
Qed.

(** Running [load_data] on a file that exists, parses and has its date
    column: what is left is the choice of the column. *)
Ltac run_load H :=
  let Hex := fresh "Hex" in
  let Hrd := fresh "Hrd" in
  let Hstd := fresh "Hstd" in
  destruct H as (Hex & Hrd & Hstd);
  unfold load_data, load_body; rewrite Hex, Hrd; simpl;
  rewrite Hstd; simpl.

Lemma load_cumulative data_type base_type raw df c :
  parsed_as data_type base_type raw df ->
  In data_type [u "PnL"; u "Fee"; u "Funding"] ->
  find mentions_cumulative (map strip (columns df)) = Some c ->
  load data_type base_type =
  ([caption (file_name_of data_type base_type)],
   inr (Some (selection (strip_columns df) c (data_type ++ u " Cumulative")))).
Proof.
  intros H Hin Hc. run_load H.
  apply str_in_In in Hin. rewrite Hin.
  destruct (filter_cons_find _ _ Hc) as (rest & ->).
  apply find_some in Hc as [_ Hc].
  unfold prepare_final. now rewrite (mentions_cumulative_truthy _ Hc).
Qed.

Lemma load_daily_fallback data_type base_type raw df c :
  parsed_as data_type base_type raw df ->
  In data_type [u "PnL"; u "Fee"; u "Funding"] ->
  find mentions_cumulative (map strip (columns df)) = None ->
  find mentions_daily (map strip (columns df)) = Some c ->
  load data_type base_type =
  ([caption (file_name_of data_type base_type)],
   inr (Some (selection (strip_columns df) c (data_type ++ u " Daily")))).
Proof.
  intros H Hin Hn Hc. run_load H.
  apply str_in_In in Hin. rewrite Hin.
  apply filter_nil_find in Hn. rewrite Hn.
  destruct (filter_cons_find _ _ Hc) as (rest & ->).
  apply find_some in Hc as [_ Hc].
  unfold prepare_final. now rewrite (mentions_daily_truthy _ Hc).
Qed.

Lemma load_no_column data_type base_type raw df :
  parsed_as data_type base_type raw df ->
  In data_type [u "PnL"; u "Fee"; u "Funding"] ->
  find mentions_cumulative (map strip (columns df)) = None ->
  find mentions_daily (map strip (columns df)) = None ->
  load data_type base_type =
  ([caption (file_name_of data_type base_type);
    StWarning (WARNING_SIGN ++ u " No 'Cumulative' or 'Daily' columns found in "
               ++ file_name_of data_type base_type)],
   inr None).
Proof.
  intros H Hin Hn Hd. run_load H.
  apply str_in_In in Hin. rewrite Hin.
  apply filter_nil_find in Hn. rewrite Hn.
  apply filter_nil_find in Hd. rewrite Hd. reflexivity.
Qed.

Lemma load_volume_daily base_type raw df c :
  parsed_as (u "Volume") base_type raw df ->
  find mentions_daily (map strip (columns df)) = Some c ->
  load (u "Volume") base_type =
  ([caption (file_name_of (u "Volume") base_type)],
   inr (Some (selection (strip_columns df) c (u "Volume" ++ u " Daily")))).
Proof.
  intros H Hc. run_load H.
  change (str_in (u "Volume") [u "PnL"; u "Fee"; u "Funding"]) with false.
  change (str_eqb (u "Volume") (u "Volume")) with true. cbv iota.
  destruct (filter_cons_find _ _ Hc) as (rest & ->).
  apply find_some in Hc as [_ Hc].
  unfold prepare_final. now rewrite (mentions_daily_truthy _ Hc).
Qed.

Lemma load_volume_no_daily base_type raw df :
  parsed_as (u "Volume") base_type raw df ->
  find mentions_daily (map strip (columns df)) = None ->
  load (u "Volume") base_type =
  ([caption (file_name_of (u "Volume") base_type);
    StWarning (WARNING_SIGN ++ u " No 'Daily' columns found in "
               ++ file_name_of (u "Volume") base_type)],
   inr None).
Proof.
  intros H Hd. run_load H.
  change (str_in (u "Volume") [u "PnL"; u "Fee"; u "Funding"]) with false.
  change (str_eqb (u "Volume") (u "Volume")) with true. cbv iota.
  apply filter_nil_find in Hd. now rewrite Hd.
Qed.

Lemma load_other_kind data_type base_type raw df :
  parsed_as data_type base_type raw df ->
  ~ In data_type [u "PnL"; u "Volume"; u "Fee"; u "Funding"] ->
  load data_type base_type =
  ([caption (file_name_of data_type base_type)], inr None).
Proof.
  intros H Hout. run_load H.
  assert (E1 : str_in data_type [u "PnL"; u "Fee"; u "Funding"] = false).
  { apply not_true_iff_false. intros T. apply str_in_In in T.
    apply Hout. simpl in *. tauto. }
  assert (E2 : str_eqb data_type (u "Volume") = false).
  { apply str_eqb_neq. intros ->. apply Hout. simpl. tauto. }
  now rewrite E1, E2.
Qed.

(** C1, as the code has it. For PnL, Fee and Funding the column is chosen
    by an ordered policy over the trimmed column names, with a
    case-sensitive test that knows two spellings of each word: the first
    name containing "Cumulative" or "CUMULATIVE" is selected and the
    output is labelled "<metric> Cumulative"; with no such name, the first
    name containing "Daily" or "DAILY" is selected and the output is
    labelled "<metric> Daily"; with neither, a missing-column warning is
    shown and the result is absent. *)
Theorem load_data_cumulative_then_daily data_type base_type raw df :
  parsed_as data_type base_type raw df ->
  In data_type [u "PnL"; u "Fee"; u "Funding"] ->
  let names := map strip (columns df) in
  let file_name := file_name_of data_type base_type in
  match find mentions_cumulative names with
  | Some c =>
      exists r,
        load data_type base_type = ([caption file_name], inr (Some r)) /\
        r = selection (strip_columns df) c (data_type ++ u " Cumulative") /\
        columns r <> [] /\
        Forall (eq (data_type ++ u " Cumulative")) (columns r)
  | None =>
      match find mentions_daily names with
      | Some c =>
          exists r,
            load data_type base_type = ([caption file_name], inr (Some r)) /\
            r = selection (strip_columns df) c (data_type ++ u " Daily") /\
            columns r <> [] /\
            Forall (eq (data_type ++ u " Daily")) (columns r)
      | None =>
          load data_type base_type =
          ([caption file_name;
            StWarning (WARNING_SIGN
                       ++ u " No 'Cumulative' or 'Daily' columns found in "
                       ++ file_name)],
           inr None)
      end
  end.
Proof.
  intros H Hin names file_name.
  destruct (find mentions_cumulative names) as [c|] eqn:Hc.
  - exists (selection (strip_columns df) c (data_type ++ u " Cumulative")).
    split; [now apply load_cumulative with raw | split; [reflexivity|]].
    apply selection_labelled. now apply find_some in Hc as [Hc _].
  - destruct (find mentions_daily names) as [c|] eqn:Hd.
    + exists (selection (strip_columns df) c (data_type ++ u " Daily")).
      split; [now apply load_daily_fallback with raw | split; [reflexivity|]].
      apply selection_labelled. now apply find_some in Hd as [Hd _].
    + now apply load_no_column with raw df.
Qed.

(** C10. For a data type outside PnL, Volume, Fee and Funding, a file that
    exists, parses and has its date column gives absent with no column
    selected and no warning: the only message is the sidebar caption. *)
Theorem load_data_unknown_kind_silent data_type base_type raw df :
  parsed_as data_type base_type raw df ->
  ~ In data_type [u "PnL"; u "Volume"; u "Fee"; u "Funding"] ->
  load data_type base_type =
    ([caption (file_name_of data_type base_type)], inr None) /\
  forall log res msg,
    load data_type base_type = (log, res) -> ~ In (StWarning msg) log.
Proof.
  intros H Hout. pose proof (load_other_kind H Hout) as E.
  split; [exact E|].
  intros log res msg E'. rewrite E in E'. injection E' as <- _.
  intros [F|[]]. discriminate.
Qed.

(** C6. [load_data] never raises: it always returns, a frame or absent. A
    missing file is reported in the sidebar and gives absent; an exception
    raised while the file is read or processed is caught, reported as an
    error message and gives absent; otherwise the outcome is the one of
    the processing. *)
Theorem load_data_never_raises data_type base_type :
  let file_name := file_name_of data_type base_type in
  exists log res,
    load data_type base_type = (log, inr res) /\
    (path_exists file_name = false ->
     log = [SidebarError (SIREN ++ u " File missing: " ++ file_name
                          ++ u " not found")] /\
     res = None) /\
    (path_exists file_name = true ->
     forall l e,
       load_body read_csv to_datetime data_type file_name = (l, inl e) ->
       log = l ++ [StError (u "Error processing " ++ file_name ++ u ": "
                            ++ str_of_exn e)] /\
       res = None) /\
    (path_exists file_name = true ->
     forall l a,
       load_body read_csv to_datetime data_type file_name = (l, inr a) ->
       log = l /\ res = a).
Proof.
  intros file_name. unfold load_data. fold file_name.
  destruct (path_exists file_name); simpl.
  - destruct (load_body read_csv to_datetime data_type file_name)
      as [l [e|a]] eqn:B; simpl.
    + eexists _, None. split; [reflexivity|].
      split; [discriminate|]. split.
      * intros _ l' e' [= <- <-]. now split.
      * intros _ l' a' [=].
    + exists l, a. split; [reflexivity|].
      split; [discriminate|]. split.
      * intros _ l' e' [=].
      * intros _ l' a' [= <- <-]. now split.
  - eexists _, None. split; [reflexivity|].
    split; [now split|]. split; discriminate.
Qed.

Lemma positions_none (p : pystr -> bool) (names : list pystr) :
  (forall n, In n names -> p n = false) -> positions p names = [].
Proof.
  intros H. apply length_zero_iff_nil. rewrite positions_length.
  apply length_zero_iff_nil.
  destruct (filter p names) as [|x l] eqn:E; [reflexivity|].
  assert (I : In x (filter p names)) by (rewrite E; now left).
  apply filter_In in I as [I T]. rewrite (H _ I) in T. discriminate.
Qed.

Lemma standardize_date_columns (raw : RawFrame V) (df : frame) :
  standardize_date to_datetime raw = inr df ->
  columns df =
  filter (fun n => negb (str_eqb (u "Date") n)) (raw_columns raw).
Proof.
  unfold standardize_date.
  destruct (positions (str_eqb (u "Date")) (raw_columns raw)) as [|j [|k l]];
    try discriminate.
  destruct (to_datetime _) as [e|dates]; [discriminate|].
  intros [= <-]. simpl. apply nth_positions.
Qed.

Lemma find_exists (p : pystr -> bool) (names : list pystr) :
  (exists c, find p names = Some c) <->
  (exists n, In n names /\ p n = true).
Proof.
  split.
  - intros (c & Hc). exists c. now apply find_some in Hc.
  - intros (n & Hn & Hp).
    destruct (find p names) as [c|] eqn:E; [now exists c|].
    rewrite (find_none _ _ E _ Hn) in Hp. discriminate.
Qed.



Lemma filter_nodup (c : pystr) (names : list pystr) :
  NoDup names -> In c names -> filter (str_eqb c) names = [c].
Proof.
  induction 1 as [|x l Hx Hl IH]; intros Hin; [contradiction|].
  simpl. destruct (str_eqb c x) eqn:E.
  - apply str_eqb_eq in E. subst x. f_equal.
    destruct (filter (str_eqb c) l) as [|y l'] eqn:F; [reflexivity|].
    assert (I : In y (filter (str_eqb c) l)) by (rewrite F; now left).
    apply filter_In in I as [I T]. apply str_eqb_eq in T. now subst.
  - apply str_eqb_neq in E. destruct Hin as [->|Hin]; [congruence|auto].
Qed.

(** C3, as the code has it. For PnL, Fee and Funding, and either
    denomination, a well-formed file (it exists, parses, has its date
    column, and its trimmed column names are pairwise distinct) with a
    column whose trimmed name contains "Cumulative" gives a frame whose
    single column is labelled "<metric> Cumulative". *)
Theorem load_data_cumulative_label data_type base_type raw df n :
  parsed_as data_type base_type raw df ->
  In data_type [u "PnL"; u "Fee"; u "Funding"] ->
  NoDup (map strip (columns df)) ->
  In n (map strip (columns df)) ->
  contains (u "Cumulative") n = true ->
  exists r,
    load data_type base_type =
    ([caption (file_name_of data_type base_type)], inr (Some r)) /\
    columns r = [data_type ++ u " Cumulative"].
Proof.
  intros H Hin Hnd Hn Hc.
  assert (F : exists c, find mentions_cumulative (map strip (columns df))
                        = Some c).
  { apply find_exists. exists n. split; [assumption|].
    unfold mentions_cumulative. now rewrite Hc. }
  destruct F as (c & F).
  exists (selection (strip_columns df) c (data_type ++ u " Cumulative")).
  split; [now apply load_cumulative with raw|].
  apply find_some in F as [Fin _].
  rewrite selection_columns.
  assert (L : List.length (positions (str_eqb c) (columns (strip_columns df)))
              = 1).
  { rewrite positions_length. simpl. now rewrite filter_nodup. }
  destruct (positions (str_eqb c) (columns (strip_columns df))) as [|j [|k l]];
    simpl in L; try discriminate. reflexivity.
Qed.

(** ** Rows *)

Lemma take_shift (js : list nat) (row : list (cell V)) :
  take (map S js) row = take js (List.tl row).
Proof.
  unfold take. rewrite map_map. apply map_ext. intros j.
  unfold iloc. destruct row; [now destruct j | reflexivity].
Qed.

Lemma take_take (p q : pystr -> bool) (f : pystr -> pystr)
    (names : list pystr) (row : list (cell V)) :
  take (positions q (map f (filter p names))) (take (positions p names) row) =
  take (positions (fun n => p n && q (f n)) names) row.
Proof.
  revert row; induction names as [|n ns IH]; intros row; [reflexivity|].
  rewrite !positions_cons. simpl filter.
  destruct (p n); simpl.
  - rewrite positions_cons, take_shift.
    destruct (q (f n)); simpl; rewrite !take_shift; simpl;
      now rewrite IH.
  - rewrite !take_shift. apply IH.
Qed.

Lemma combine_map_snd (A B C : Type) (g : B -> C) (a : list A) (b : list B) :
  combine a (map g b) = map (fun e => (fst e, g (snd e))) (combine a b).
Proof.
  revert b; induction a as [|x a IH]; intros [|y b]; simpl; try reflexivity.
  now rewrite IH.
Qed.

Lemma filter_map_swap (A B : Type) (g : A -> B) (p : B -> bool) (l : list A) :
  filter p (map g l) = map g (filter (fun x => p (g x)) l).
Proof.
  induction l as [|x l IH]; simpl; [reflexivity|].
  destruct (p (g x)); simpl; now rewrite IH.
Qed.

Lemma filter_subsequence (A : Type) (p : A -> bool) (l : list A) :
  subsequence (filter p l) l.
Proof.
  induction l as [|x l IH]; simpl; [constructor|].
  destruct (p x); now constructor.
Qed.

Lemma map_subsequence (A B : Type) (g : A -> B) (s l : list A) :
  subsequence s l -> subsequence (map g s) (map g l).
Proof. induction 1; simpl; now constructor. Qed.

Lemma subsequence_trans (A : Type) (a b c : list A) :
  subsequence a b -> subsequence b c -> subsequence a c.
Proof.
  intros Hab Hbc. revert a Hab.
  induction Hbc as [|x s l H IH|x s l H IH]; intros a Hab.
  - assumption.
  - constructor. now apply IH.
  - inversion Hab; subst.
    + constructor. now apply IH.
    + apply subsequence_keep. now apply IH.
Qed.

Lemma combine_fst_subsequence (A B : Type) (a : list A) (b : list B) :
  subsequence (map fst (combine a b)) a.
Proof.
  revert b; induction a as [|x a IH]; intros b; simpl; [constructor|].
  destruct b as [|y b]; simpl.
  - constructor. specialize (IH []). destruct a; simpl in IH; exact IH.
  - now constructor.
Qed.

Lemma filter_combine_snd (A B : Type) (p : B -> bool) (a : list A)
    (b : list B) :
  List.length a = List.length b ->
  map snd (filter (fun e => p (snd e)) (combine a b)) = filter p b.
Proof.
  revert b; induction a as [|x a IH]; intros [|y b] L; simpl in *;
    try discriminate; [reflexivity|].
  destruct (p y); simpl; rewrite IH by lia; reflexivity.
Qed.

Lemma standardize_date_inv (raw : RawFrame V) (df : frame) :
  standardize_date to_datetime raw = inr df ->
  exists j dates,
    positions (str_eqb (u "Date")) (raw_columns raw) = [j] /\
    to_datetime (map (fun r => iloc r j) (raw_rows raw)) = inr dates /\
    rows df =
    combine dates
      (map (take (positions (fun n => negb (str_eqb (u "Date") n))
                    (raw_columns raw))) (raw_rows raw)).
Proof.
  unfold standardize_date.
  destruct (positions (str_eqb (u "Date")) (raw_columns raw)) as [|j [|k l]];
    try discriminate.
  destruct (to_datetime _) as [e|dates] eqn:E; [discriminate|].
  intros [= <-]. exists j, dates. now repeat split.
Qed.

(** The rows of the selected frame, read off the rows of the file. *)
Lemma selection_rows (raw : RawFrame V) (df : frame) (c new : pystr) :
  standardize_date to_datetime raw = inr df ->
  exists j dates,
    positions (str_eqb (u "Date")) (raw_columns raw) = [j] /\
    to_datetime (map (fun r => iloc r j) (raw_rows raw)) = inr dates /\
    rows (selection (strip_columns df) c new) =
    map (fun e => (fst e, take (selected_positions raw c) (snd e)))
      (filter (fun e => defined_at (selected_positions raw c) (snd e))
         (combine dates (raw_rows raw))).
Proof.
  intros Hstd.
  pose proof (standardize_date_columns _ Hstd) as Hcols.
  destruct (standardize_date_inv _ Hstd) as (j & dates & Hj & Hd & Hrows).
  exists j, dates. split; [assumption|]. split; [assumption|].
  unfold selection, dropna, rename, getitem_cols, strip_columns. simpl.
  rewrite Hrows, Hcols, combine_map_snd, map_map. simpl.
  rewrite filter_map_swap. simpl. unfold defined_at, selected_positions.
  rewrite (filter_ext _ (fun e => forallb (notna (V:=V))
             (take (positions
                      (fun n => negb (str_eqb (u "Date") n)
                                && str_eqb c (strip n))
                      (raw_columns raw)) (snd e))));
    [|intros e; now rewrite take_take].
  apply map_ext. intros e. now rewrite take_take.
Qed.

Lemma filter_cons_head (p : pystr -> bool) (l : list pystr) c rest :
  filter p l = c :: rest -> find p l = Some c /\ In c l.
Proof.
  intros F. rewrite <- filter_head, F. split; [reflexivity|].
  assert (I : In c (filter p l)) by (rewrite F; now left).
  now apply filter_In in I.
Qed.

(** A frame is returned only for a file that exists, parses and has its
    date column, and it is the selection of the label chosen among the
    trimmed names. *)
Lemma load_some_inv data_type base_type log (r : frame) :
  load data_type base_type = (log, inr (Some r)) ->
  exists raw df c new,
    parsed_as data_type base_type raw df /\
    selected_label data_type (map strip (columns df)) = Some c /\
    In c (map strip (columns df)) /\
    r = selection (strip_columns df) c new.
Proof.
  unfold load_data, load_body, parsed, selected_label.
  destruct (path_exists (file_name_of data_type base_type)) eqn:Hex;
    simpl; [|discriminate].
  destruct (read_csv (file_name_of data_type base_type)) as [e|raw] eqn:Hrd;
    simpl; [discriminate|].
  destruct (standardize_date to_datetime raw) as [e|df] eqn:Hstd;
    simpl; [discriminate|].
  destruct (str_in data_type [u "PnL"; u "Fee"; u "Funding"]).
  - destruct (filter mentions_cumulative (map strip (columns df)))
      as [|c rest] eqn:F.
    + apply filter_nil_find in F.
      destruct (filter mentions_daily (map strip (columns df)))
        as [|c rest] eqn:F'; [discriminate|].
      apply filter_cons_head in F' as [F' I].
      unfold prepare_final. destruct (truthy c); simpl; intros [= _ <-].
      exists raw, df, c, (data_type ++ u " Daily"). rewrite F.
      now repeat split.
    + apply filter_cons_head in F as [F I].
      unfold prepare_final. destruct (truthy c); simpl; intros [= _ <-].
      exists raw, df, c, (data_type ++ u " Cumulative"). rewrite F.
      now repeat split.
  - destruct (str_eqb data_type (u "Volume")); [|discriminate].
    destruct (filter mentions_daily (map strip (columns df)))
      as [|c rest] eqn:F'; [discriminate|].
    apply filter_cons_head in F' as [F' I].
    unfold prepare_final. destruct (truthy c); simpl; intros [= _ <-].
    exists raw, df, c, (data_type ++ u " Daily").
    now repeat split.
Qed.

(** C8. The rows of a returned frame are rows of the file in the file's
    order: each keeps the date parsed for it and the cells of the selected
    columns, rows are only left out, never moved, so the index is the
    parsed dates with entries left out and no sort takes place. *)
Theorem load_data_keeps_file_order data_type base_type log (r : frame) :
  load data_type base_type = (log, inr (Some r)) ->
  exists raw j dates c,
    read_csv (file_name_of data_type base_type) = inr raw /\
    positions (str_eqb (u "Date")) (raw_columns raw) = [j] /\
    to_datetime (map (fun row => iloc row j) (raw_rows raw)) = inr dates /\
    selected_label data_type (trimmed_names raw) = Some c /\
    rows r =
    map (fun e => (fst e, take (selected_positions raw c) (snd e)))
      (filter (fun e => defined_at (selected_positions raw c) (snd e))
         (combine dates (raw_rows raw))) /\
    subsequence (map fst (rows r)) dates.
Proof.
  intros E.
  destruct (load_some_inv _ _ E) as (raw & df & c & new & P & Hsel & _ & ->).
  destruct P as (_ & Hrd & Hstd).
  destruct (@selection_rows raw df c new Hstd)
    as (j & dates & Hj & Hd & Hrows).
  rewrite (standardize_date_columns _ Hstd) in Hsel.
  exists raw, j, dates, c. repeat split; try assumption.
  rewrite Hrows, map_map. simpl.
  apply subsequence_trans with (map fst (combine dates (raw_rows raw))).
  - apply map_subsequence, filter_subsequence.
  - apply combine_fst_subsequence.
Qed.

(** C7. Rows with a missing value in the selected column are left out and
    nothing else changes: the returned frame has as many rows as the file
    has rows with a value in the selected column, and its values are
    those of these rows, in order. (The selection is by label, so it takes
    every column whose trimmed name is the selected one; with one such
    column, at position [j], the count is that of the rows defined at
    [j].) *)
Theorem load_data_drops_missing data_type base_type log (r : frame) :
  (forall col dates,
     to_datetime col = inr dates -> List.length dates = List.length col) ->
  load data_type base_type = (log, inr (Some r)) ->
  exists raw c,
    read_csv (file_name_of data_type base_type) = inr raw /\
    selected_label data_type (trimmed_names raw) = Some c /\
    selected_positions raw c <> [] /\
    List.length (rows r) =
    List.length (filter (defined_at (selected_positions raw c))
                   (raw_rows raw)) /\
    map snd (rows r) =
    map (take (selected_positions raw c))
      (filter (defined_at (selected_positions raw c)) (raw_rows raw)) /\
    forall j,
      selected_positions raw c = [j] ->
      List.length (rows r) =
      List.length (filter (fun row => notna (iloc row j)) (raw_rows raw)) /\
      map snd (rows r) =
      map (fun row => [iloc row j])
        (filter (fun row => notna (iloc row j)) (raw_rows raw)).
Proof.
  intros Hlen E.
  destruct (load_some_inv _ _ E)
    as (raw & df & c & new & P & Hsel & Hin & ->).
  destruct P as (_ & Hrd & Hstd).
  rewrite (standardize_date_columns _ Hstd) in Hsel.
  destruct (@selection_rows raw df c new Hstd)
    as (j & dates & Hj & Hd & Hrows).
  apply Hlen in Hd. rewrite length_map in Hd.
  assert (Hval : map snd (rows (selection (strip_columns df) c new)) =
                 map (take (selected_positions raw c))
                   (filter (defined_at (selected_positions raw c))
                      (raw_rows raw))).
  { rewrite Hrows, map_map. simpl.
    rewrite <- (filter_combine_snd (defined_at (selected_positions raw c))
                  dates (raw_rows raw) Hd).
    now rewrite map_map. }
  assert (Hcount : List.length (rows (selection (strip_columns df) c new)) =
                   List.length (filter (defined_at (selected_positions raw c))
                                  (raw_rows raw))).
  { rewrite <- (length_map snd), Hval. apply length_map. }
  exists raw, c. split; [assumption|]. split; [assumption|].
  split; [|split; [|split]]; try assumption.
  - rewrite (standardize_date_columns _ Hstd) in Hin.
    apply in_map_iff in Hin as (n & Hs & Hn).
    apply filter_In in Hn as [Hn Hp].
    unfold selected_positions. apply positions_some with n; [assumption|].
    now rewrite Hp, Hs, str_eqb_refl.
  - intros k Hk. rewrite Hcount, Hval, Hk. unfold defined_at, take. simpl.
    rewrite (filter_ext (fun row => notna (iloc row k) && true)
               (fun row => notna (iloc row k)))
      by (intros row; apply andb_true_r).
    now split.
Qed.

(** ** The presenter *)

Notation display := (display_data_block (D := D) format_value).

Lemma positions_first (c : pystr) (rest : list pystr) :
  ~ In c rest -> positions (str_eqb c) (c :: rest) = [0].
Proof.
  intros Hn. rewrite positions_cons, str_eqb_refl.
  rewrite positions_none; [reflexivity|].
  intros n Hin. apply str_eqb_neq. intros <-. contradiction.
Qed.

(** C9. For an absent frame or one without rows the presenter shows the
    "no data" placeholder and nothing else. Otherwise the headline metric
    is the value of the last row, formatted with the specification ".2f"
    when the column label contains "Cumulative" and ".4f" when it does
    not, followed by a space and the unit. *)
Theorem display_data_block_headline title unit :
  display title None unit =
    ([StInfo (u "No data available for " ++ title ++ u ".")], inr tt) /\
  (forall d : frame,
     rows d = [] ->
     display title (Some d) unit =
     ([StInfo (u "No data available for " ++ title ++ u ".")], inr tt)) /\
  (forall (d : frame) col_name rest init e shown,
     columns d = col_name :: rest ->
     ~ In col_name rest ->
     rows d = init ++ [e] ->
     format_value (iloc (snd e) 0)
       (if contains (u "Cumulative") col_name then u ".2f" else u ".4f")
     = inr shown ->
     display title (Some d) unit =
     ([StContainer true;
       StSubheader title;
       StMetric (u "Latest " ++ col_name) (shown ++ u " " ++ unit);
       StLineChart d true 250;
       StExpander (MEMO ++ u " View recent raw data") false;
       StDataframe (tail 7 d) true],
      inr tt)).
Proof.
  split; [reflexivity|]. split.
  - intros d Hr. unfold display_data_block, empty. rewrite Hr. simpl.
    now rewrite orb_true_r.
  - intros d col_name rest init e shown Hc Hn Hr Hf.
    assert (Hl : latest d col_name = inr (Scalar (iloc (snd e) 0))).
    { unfold latest. rewrite Hc, positions_first, Hr, rev_app_distr
        by assumption. reflexivity. }
    assert (He : empty d = false).
    { unfold empty. rewrite Hc, Hr, length_app. simpl.
      apply Nat.eqb_neq. lia. }
    unfold display_data_block, first_column. rewrite He, Hc.
    cbn [bind emit lift app]. rewrite Hl.
    cbn [bind emit lift app py_format]. rewrite Hf. reflexivity.
Qed.

End Properties.


(** * The sample directory *)

Notation sample_parsed dt bt :=
  (parsed Sample.path_exists Sample.read_csv Sample.to_datetime
     (u dt) (u bt) (Sample.raw_of dt bt) (Sample.dated dt bt)).

Lemma sample_to_datetime_length col dates :
  Sample.to_datetime col = inr dates ->
  List.length dates = List.length col.
Proof.
  revert dates; induction col as [|c cs IH]; simpl; intros dates.
  - now intros [= <-].
  - destruct (Sample.parse_cell c) as [e|d]; [discriminate|].
    destruct (Sample.to_datetime cs) as [e|ds]; [discriminate|].
    intros [= <-]. simpl. f_equal. now apply IH.
Qed.

(** The example of the specification: the cumulative PnL column is
    selected, relabelled, and its two values are kept under their dates. *)
Example load_pnl_usd :
  Sample.load_data (u "PnL") (u "USDBased") =
  ([Sample.loaded "PnL" "USDBased"],
   inr (Some {| columns := [u "PnL Cumulative"];
                rows := [ (Some 20250407%N, [Sample.num 1005000]);
                          (Some 20250408%N, [Sample.num 1022500]) ] |})).
Proof. vm_compute. reflexivity. Qed.

(** A Volume file with one missing and one real daily value gives one
    row. *)
Example load_volume_coin :
  Sample.load_data (u "Volume") (u "CoinBased") =
  ([Sample.loaded "Volume" "CoinBased"],
   inr (Some {| columns := [u "Volume Daily"];
                rows := [ (Some 20250408%N, [Sample.num 80000]) ] |})).
Proof. vm_compute. reflexivity. Qed.

(** Two header names that trim to the same label are selected together,
    and a row is kept when it has a value in both. *)
Example load_pnl_paired :
  Sample.load_data (u "PnL") (u "Paired") =
  ([Sample.loaded "PnL" "Paired"],
   inr (Some {| columns := [u "PnL Cumulative"; u "PnL Cumulative"];
                rows := [ (Some 20250408%N,
                           [Sample.num 20000; Sample.num 5000]) ] |})).
Proof. vm_compute. reflexivity. Qed.

(** A date that does not parse is reported and gives absent. *)
Example load_funding_paired :
  Sample.load_data (u "Funding") (u "Paired") =
  ([Sample.loaded "Funding" "Paired";
    StError (u "Error processing " ++ Sample.records "Funding" "Paired"
             ++ u ": Unknown datetime string format")],
   inr None).
Proof. vm_compute. reflexivity. Qed.

Lemma load_data_cumulative_then_daily_witness :
  sample_parsed "Fee" "CoinBased" /\
  In (u "Fee") [u "PnL"; u "Fee"; u "Funding"] /\
  exists r,
    Sample.load_data (u "Fee") (u "CoinBased") =
    ([Sample.loaded "Fee" "CoinBased"], inr (Some r)) /\
    r = selection (strip_columns (Sample.dated "Fee" "CoinBased"))
          (u "Fee DAILY (ETH)") (u "Fee" ++ u " Daily") /\
    columns r <> [] /\
    Forall (eq (u "Fee" ++ u " Daily")) (columns r).
Proof.
  assert (P : sample_parsed "Fee" "CoinBased") by (repeat split; reflexivity).
  assert (I : In (u "Fee") [u "PnL"; u "Fee"; u "Funding"])
    by (right; left; reflexivity).
  split; [exact P|]. split; [exact I|].
  exact (load_data_cumulative_then_daily P I).
Defined.

Lemma load_data_unknown_kind_silent_witness :
  sample_parsed "Spread" "USDBased" /\
  ~ In (u "Spread") [u "PnL"; u "Volume"; u "Fee"; u "Funding"] /\
  Sample.load_data (u "Spread") (u "USDBased") =
  ([Sample.loaded "Spread" "USDBased"], inr None).
Proof.
  assert (P : sample_parsed "Spread" "USDBased")
    by (repeat split; reflexivity).
  assert (O : ~ In (u "Spread") [u "PnL"; u "Volume"; u "Fee"; u "Funding"]).
  { intros [E|[E|[E|[E|[]]]]]; discriminate E. }
  split; [exact P|]. split; [exact O|].
  exact (proj1 (load_data_unknown_kind_silent P O)).
Defined.



(** A Volume file whose only value column is a cumulative one: the loader
    warns and returns absent, no frame labelled "Volume Cumulative". *)
Lemma load_data_cumulative_label_counterexample :
  sample_parsed "Volume" "USDBased" /\
  In (u "Volume Cumulative")
    (map strip (columns (Sample.dated "Volume" "USDBased"))) /\
  NoDup (map strip (columns (Sample.dated "Volume" "USDBased"))) /\
  contains (u "Cumulative") (u "Volume Cumulative") = true /\
  Sample.load_data (u "Volume") (u "USDBased") =
  ([Sample.loaded "Volume" "USDBased";
    StWarning (WARNING_SIGN ++ u " No 'Daily' columns found in "
               ++ Sample.records "Volume" "USDBased")],
   inr None).
Proof.
  split; [repeat split; reflexivity|].
  split; [left; reflexivity|].
  split; [repeat constructor; intros []|].
  split; vm_compute; reflexivity.
Qed.

Lemma load_data_cumulative_label_witness :
  sample_parsed "PnL" "USDBased" /\
  In (u "PnL") [u "PnL"; u "Fee"; u "Funding"] /\
  NoDup (map strip (columns (Sample.dated "PnL" "USDBased"))) /\
  In (u "PnL Cumulative ($)")
    (map strip (columns (Sample.dated "PnL" "USDBased"))) /\
  contains (u "Cumulative") (u "PnL Cumulative ($)") = true /\
  exists r,
    Sample.load_data (u "PnL") (u "USDBased") =
    ([Sample.loaded "PnL" "USDBased"], inr (Some r)) /\
    columns r = [u "PnL" ++ u " Cumulative"].
Proof.
  assert (P : sample_parsed "PnL" "USDBased") by (repeat split; reflexivity).
  assert (I : In (u "PnL") [u "PnL"; u "Fee"; u "Funding"])
    by (left; reflexivity).
  assert (N : NoDup (map strip (columns (Sample.dated "PnL" "USDBased")))).
  { apply NoDup_cons; [|apply NoDup_cons; [intros []|apply NoDup_nil]].
    intros [E|[]]. discriminate E. }
  assert (J : In (u "PnL Cumulative ($)")
                (map strip (columns (Sample.dated "PnL" "USDBased"))))
    by (left; reflexivity).
  assert (C : contains (u "Cumulative") (u "PnL Cumulative ($)") = true)
    by reflexivity.
  repeat (split; [assumption|]).
  exact (@load_data_cumulative_label _ _ Sample.path_exists Sample.read_csv
           Sample.to_datetime (u "PnL") (u "USDBased") _ _ _ P I N J C).
Defined.

(** A header name that trims to Date without being Date: the lookup of the
    date column fails, the error is reported and the result is absent. *)
Lemma load_data_trimmed_date_counterexample :
  Sample.path_exists (Sample.records "Funding" "USDBased") = true /\
  raw_columns (Sample.raw_of "Funding" "USDBased") =
    [u " Date "; u "Funding Cumulative"] /\
  strip (u " Date ") = u "Date" /\
  Sample.load_data (u "Funding") (u "USDBased") =
  ([Sample.loaded "Funding" "USDBased";
    StError (u "Error processing " ++ Sample.records "Funding" "USDBased"
             ++ u ": 'Date'")],
   inr None).
Proof. repeat split; vm_compute; reflexivity. Qed.

Lemma load_data_never_raises_witness :
  Sample.path_exists (Sample.records "PnL" "CoinBased") = false /\
  exists log res,
    Sample.load_data (u "PnL") (u "CoinBased") = (log, inr res) /\
    log = [SidebarError (SIREN ++ u " File missing: "
                         ++ Sample.records "PnL" "CoinBased"
                         ++ u " not found")] /\
    res = None.
Proof.
  assert (X : Sample.path_exists (Sample.records "PnL" "CoinBased") = false)
    by reflexivity.
  split; [exact X|].
  destruct (load_data_never_raises Sample.path_exists Sample.read_csv
              Sample.to_datetime (u "PnL") (u "CoinBased"))
    as (log & res & E & Hmiss & _).
  exists log, res. split; [exact E|]. exact (Hmiss X).
Defined.

(** Rows out of chronological order, one of them without a value: the
    three remaining rows come back in the order of the file. *)
Lemma load_data_keeps_file_order_witness :
  exists raw j dates c,
    Sample.read_csv (Sample.records "Funding" "CoinBased") = inr raw /\
    positions (str_eqb (u "Date")) (raw_columns raw) = [j] /\
    Sample.to_datetime (map (fun row => iloc row j) (raw_rows raw))
    = inr dates /\
    selected_label (u "Funding") (trimmed_names raw) = Some c /\
    [ (Some 20250409%N, [Sample.num 900]);
      (Some 20250407%N, [Sample.num 400]);
      (Some 20250408%N, [Sample.num 700]) ] =
    map (fun e => (fst e, take (selected_positions raw c) (snd e)))
      (filter (fun e => defined_at (selected_positions raw c) (snd e))
         (combine dates (raw_rows raw))) /\
    subsequence [Some 20250409%N; Some 20250407%N; Some 20250408%N] dates.
Proof.
  exact (@load_data_keeps_file_order _ _ Sample.path_exists Sample.read_csv
           Sample.to_datetime (u "Funding") (u "CoinBased")
           [Sample.loaded "Funding" "CoinBased"]
           {| columns := [u "Funding Cumulative"];
              rows := [ (Some 20250409%N, [Sample.num 900]);
                        (Some 20250407%N, [Sample.num 400]);
                        (Some 20250408%N, [Sample.num 700]) ] |}
           eq_refl).
Defined.

Lemma load_data_drops_missing_witness :
  exists raw c,
    Sample.read_csv (Sample.records "Funding" "CoinBased") = inr raw /\
    selected_label (u "Funding") (trimmed_names raw) = Some c /\
    selected_positions raw c <> [] /\
    3 = List.length (filter (defined_at (selected_positions raw c))
                       (raw_rows raw)) /\
    [[Sample.num 900]; [Sample.num 400]; [Sample.num 700]] =
    map (take (selected_positions raw c))
      (filter (defined_at (selected_positions raw c)) (raw_rows raw)).
Proof.
  destruct (@load_data_drops_missing _ _ Sample.path_exists Sample.read_csv
              Sample.to_datetime (u "Funding") (u "CoinBased")
              [Sample.loaded "Funding" "CoinBased"]
              {| columns := [u "Funding Cumulative"];
                 rows := [ (Some 20250409%N, [Sample.num 900]);
                           (Some 20250407%N, [Sample.num 400]);
                           (Some 20250408%N, [Sample.num 700]) ] |}
              sample_to_datetime_length eq_refl)
    as (raw & c & Hrd & Hsel & Hne & Hlen & Hval & _).
  exists raw, c. repeat split; assumption.
Defined.

(** The example of the specification: the latest cumulative PnL is shown
    with two decimals and the unit. *)
Lemma display_data_block_headline_witness :
  Sample.display_data_block (u "PnL")
    (Some {| columns := [u "PnL Cumulative"];
             rows := [ (Some 20250407%N, [Sample.num 1005000]);
                       (Some 20250408%N, [Sample.num 1022500]) ] |})
    (u "$") =
  ([StContainer true;
    StSubheader (u "PnL");
    StMetric (u "Latest PnL Cumulative") (u "102.25 $");
    StLineChart {| columns := [u "PnL Cumulative"];
                   rows := [ (Some 20250407%N, [Sample.num 1005000]);
                             (Some 20250408%N, [Sample.num 1022500]) ] |}
      true 250;
    StExpander (MEMO ++ u " View recent raw data") false;
    StDataframe {| columns := [u "PnL Cumulative"];
                   rows := [ (Some 20250407%N, [Sample.num 1005000]);
                             (Some 20250408%N, [Sample.num 1022500]) ] |}
      true],
   inr tt).
Proof.
  exact (proj2 (proj2 (display_data_block_headline Sample.date
                          Sample.format_value (u "PnL") (u "$")))
           {| columns := [u "PnL Cumulative"];
              rows := [ (Some 20250407%N, [Sample.num 1005000]);
                        (Some 20250408%N, [Sample.num 1022500]) ] |}
           (u "PnL Cumulative") []
           [ (Some 20250407%N, [Sample.num 1005000]) ]
           (Some 20250408%N, [Sample.num 1022500])
           (u "102.25")
           eq_refl (fun H : In (u "PnL Cumulative") [] => H)
           eq_refl eq_refl).
Defined.

(** A daily label is shown with four decimals. *)
Example display_daily_four_decimals :
  Sample.display_data_block (u "Fees")
    (Some {| columns := [u "Fee Daily"];
             rows := [ (Some 20250407%N, [Sample.num 12]) ] |})
    (u "ETH") =
  ([StContainer true;
    StSubheader (u "Fees");
    StMetric (u "Latest Fee Daily") (u "0.0012 ETH");
    StLineChart {| columns := [u "Fee Daily"];
                   rows := [ (Some 20250407%N, [Sample.num 12]) ] |}
      true 250;
    StExpander (MEMO ++ u " View recent raw data") false;
    StDataframe {| columns := [u "Fee Daily"];
                   rows := [ (Some 20250407%N, [Sample.num 12]) ] |}
      true],
   inr tt).
Proof. vm_compute. reflexivity. Qed.

(** * The loader, further *)

Section LoaderProperties.

Variables V D : Type.
Variable path_exists : pystr -> bool.
Variable read_csv : pystr -> Exn + RawFrame V.
Variable to_datetime : list (cell V) -> Exn + list D.

Notation frame := (DataFrame V D).
Notation load := (load_data path_exists read_csv to_datetime).
Notation caption f := (SidebarCaption (V := V) (D := D) (u "Loaded: " ++ f)).

(** How a frame comes to be returned: the file was read and dated, and one
    of the three selecting branches ran. *)
Lemma load_some_cases data_type base_type log (r : frame) :
  load data_type base_type = (log, inr (Some r)) ->
  exists raw df c,
    parsed path_exists read_csv to_datetime data_type base_type raw df /\
    log = [caption (file_name_of data_type base_type)] /\
    In c (map strip (columns df)) /\
    ((In data_type [u "PnL"; u "Fee"; u "Funding"] /\
      find mentions_cumulative (map strip (columns df)) = Some c /\
      r = selection (strip_columns df) c (data_type ++ u " Cumulative")) \/
     (In data_type [u "PnL"; u "Fee"; u "Funding"] /\
      find mentions_cumulative (map strip (columns df)) = None /\
      find mentions_daily (map strip (columns df)) = Some c /\
      r = selection (strip_columns df) c (data_type ++ u " Daily")) \/
     (data_type = u "Volume" /\
      find mentions_daily (map strip (columns df)) = Some c /\
      r = selection (strip_columns df) c (data_type ++ u " Daily"))).
Proof.
  unfold load_data, load_body, parsed.
  destruct (path_exists (file_name_of data_type base_type)) eqn:Hex;
    simpl; [|discriminate].
  destruct (read_csv (file_name_of data_type base_type)) as [e|raw] eqn:Hrd;
    simpl; [discriminate|].
  destruct (standardize_date to_datetime raw) as [e|df] eqn:Hstd;
    simpl; [discriminate|].
  destruct (str_in data_type [u "PnL"; u "Fee"; u "Funding"]) eqn:Hin.
  - apply str_in_In in Hin.
    destruct (filter mentions_cumulative (map strip (columns df)))
      as [|c rest] eqn:F.
    + apply filter_nil_find in F.
      destruct (filter mentions_daily (map strip (columns df)))
        as [|c rest] eqn:F'; [discriminate|].
      apply filter_cons_head in F' as [F' I].
      unfold prepare_final. destruct (truthy c); simpl; intros [= <- <-].
      exists raw, df, c. split; [now repeat split|].
      split; [reflexivity|]. split; [assumption|]. right; left.
      now repeat split.
    + apply filter_cons_head in F as [F I].
      unfold prepare_final. destruct (truthy c); simpl; intros [= <- <-].
      exists raw, df, c. split; [now repeat split|].
      split; [reflexivity|]. split; [assumption|]. left.
      now repeat split.
  - destruct (str_eqb data_type (u "Volume")) eqn:Hv; [|discriminate].
    apply str_eqb_eq in Hv.
    destruct (filter mentions_daily (map strip (columns df)))
      as [|c rest] eqn:F'; [discriminate|].
    apply filter_cons_head in F' as [F' I].
    unfold prepare_final. destruct (truthy c); simpl; intros [= <- <-].
    exists raw, df, c. split; [now repeat split|].
    split; [reflexivity|]. split; [assumption|]. right; right.
    now repeat split.
Qed.

Lemma selection_rows_complete (df : frame) (c new : pystr) :
  Forall (fun row =>
            List.length (snd row) = List.length (columns (selection df c new))
            /\ Forall (fun x => notna x = true) (snd row))
    (rows (selection df c new)).
Proof.
  apply Forall_forall. intros row Hrow.
  rewrite selection_columns, length_map.
  unfold selection, dropna, rename, getitem_cols in Hrow. simpl in Hrow.
  apply filter_In in Hrow as [Hin Hall].
  apply in_map_iff in Hin as (r0 & <- & _). simpl in *.
  split.
  - unfold take. now rewrite length_map.
  - apply Forall_forall. intros x Hx.
    rewrite forallb_forall in Hall. now apply Hall.
Qed.

(** X1. A returned frame is complete and uniformly labelled: it has at
    least one column, all its columns bear one label, which is the data
    type followed by " Cumulative" or by " Daily", every row has one cell
    per column, and no cell is missing. The only message is then the
    sidebar caption. *)
Theorem load_data_frame_shape data_type base_type log (r : frame) :
  load data_type base_type = (log, inr (Some r)) ->
  log = [caption (file_name_of data_type base_type)] /\
  (exists label,
     (label = data_type ++ u " Cumulative" \/
      label = data_type ++ u " Daily") /\
     columns r <> [] /\
     Forall (eq label) (columns r)) /\
  Forall (fun row =>
            List.length (snd row) = List.length (columns r) /\
            Forall (fun x => notna x = true) (snd row))
    (rows r).
Proof.
  intros E.
  destruct (load_some_cases _ _ E) as (raw & df & c & _ & Hlog & Hin & Hc).
  split; [assumption|].
  assert (S : exists new,
             (new = data_type ++ u " Cumulative" \/
              new = data_type ++ u " Daily") /\
             r = selection (strip_columns df) c new).
  { destruct Hc as [(_ & _ & ->)|[(_ & _ & _ & ->)|(_ & _ & ->)]];
      eexists; split; try reflexivity; auto. }
  destruct S as (new & Hnew & ->). split.
  - exists new. split; [assumption|].
    now apply selection_labelled.
  - apply selection_rows_complete.
Qed.

(** X2. For the four metric kinds an absent result never comes silently:
    the messages are a sidebar error alone (missing file), an error alone
    (the file could not be read), or the caption followed by an error (the
    date column) or by a warning (no column to select). *)
Theorem load_data_absent_is_reported data_type base_type log :
  In data_type [u "PnL"; u "Volume"; u "Fee"; u "Funding"] ->
  load data_type base_type = (log, inr None) ->
  exists msg,
    log = [SidebarError msg] \/
    log = [StError msg] \/
    log = [caption (file_name_of data_type base_type); StError msg] \/
    log = [caption (file_name_of data_type base_type); StWarning msg].
Proof.
  intros Hkind. unfold load_data, load_body.
  destruct (path_exists (file_name_of data_type base_type)); simpl;
    [|intros [= <-]; eexists; left; reflexivity].
  destruct (read_csv (file_name_of data_type base_type)) as [e|raw]; simpl;
    [intros [= <-]; eexists; right; left; reflexivity|].
  destruct (standardize_date to_datetime raw) as [e|df]; simpl;
    [intros [= <-]; eexists; right; right; left; reflexivity|].
  destruct (str_in data_type [u "PnL"; u "Fee"; u "Funding"]) eqn:Hin.
  - destruct (filter mentions_cumulative (map strip (columns df)))
      as [|c rest] eqn:F.
    + destruct (filter mentions_daily (map strip (columns df)))
        as [|c rest] eqn:F'.
      * simpl. intros [= <-]. eexists. right; right; right. reflexivity.
      * apply filter_cons_head in F' as [F' _].
        apply find_some in F' as [_ F'].
        unfold prepare_final. rewrite (mentions_daily_truthy _ F').
        discriminate.
    + apply filter_cons_head in F as [F _].
      apply find_some in F as [_ F].
      unfold prepare_final. rewrite (mentions_cumulative_truthy _ F).
      discriminate.
  - assert (Hv : str_eqb data_type (u "Volume") = true).
    { apply str_eqb_eq. apply not_true_iff_false in Hin.
      rewrite str_in_In in Hin.
      destruct Hkind as [<-|[<-|[<-|[<-|[]]]]]; try reflexivity;
        exfalso; apply Hin; simpl; auto. }
    rewrite Hv.
    destruct (filter mentions_daily (map strip (columns df)))
      as [|c rest] eqn:F'.
    + simpl. intros [= <-]. eexists. right; right; right. reflexivity.
    + apply filter_cons_head in F' as [F' _].
      apply find_some in F' as [_ F'].
      unfold prepare_final. rewrite (mentions_daily_truthy _ F').
      discriminate.
Qed.

(** X3. The error message carries the text of the exception: when the
    file exists and cannot be read, the only message is the error, with no
    caption; when it is read and its date column is missing or does not
    parse, the caption is followed by the error. In both cases the result
    is absent, whatever the data type. *)
Theorem load_data_reports_failure data_type base_type :
  let file_name := file_name_of data_type base_type in
  path_exists file_name = true ->
  (forall e,
     read_csv file_name = inl e ->
     load data_type base_type =
     ([StError (u "Error processing " ++ file_name ++ u ": "
                ++ str_of_exn e)],
      inr None)) /\
  (forall raw e,
     read_csv file_name = inr raw ->
     standardize_date to_datetime raw = inl e ->
     load data_type base_type =
     ([caption file_name;
       StError (u "Error processing " ++ file_name ++ u ": "
                ++ str_of_exn e)],
      inr None)).
Proof.
  intros file_name Hex. split.
  - intros e Hrd. unfold load_data, load_body. fold file_name.
    now rewrite Hex, Hrd.
  - intros raw e Hrd Hstd. unfold load_data, load_body. fold file_name.
    rewrite Hex, Hrd. simpl. now rewrite Hstd.
Qed.

End LoaderProperties.

(** ** Names and file names *)

Lemma startswith_app (p post : pystr) : startswith p (p ++ post) = true.
Proof.
  induction p as [|a p IH]; simpl; [reflexivity|].
  now rewrite N.eqb_refl.
Qed.

Lemma startswith_inv (p s : pystr) :
  startswith p s = true -> exists post, s = p ++ post.
Proof.
  revert s; induction p as [|a p IH]; intros s H; simpl in H.
  - now exists s.
  - destruct s as [|b s]; [discriminate|].
    apply andb_true_iff in H as [Hab Hp].
    apply N.eqb_eq in Hab. subst b.
    destruct (IH _ Hp) as (post & ->). now exists post.
Qed.

Lemma contains_iff (sub s : pystr) :
  contains sub s = true <-> exists pre post, s = pre ++ sub ++ post.
Proof.
  split.
  - induction s as [|c s IH]; simpl; intros H.
    + rewrite orb_false_r in H. apply startswith_inv in H as (post & E).
      now exists [], post.
    + apply orb_true_iff in H as [H|H].
      * apply startswith_inv in H as (post & E). now exists [], post.
      * destruct (IH H) as (pre & post & ->). now exists (c :: pre), post.
  - intros (pre & post & ->).
    induction pre as [|c pre IH]; simpl.
    + assert (U : forall t, startswith sub t = true -> contains sub t = true)
        by (intros [|x t] T; simpl; now rewrite T).
      apply U, startswith_app.
    + rewrite IH. apply orb_true_r.
Qed.

Lemma contains_rev (sub s : pystr) :
  contains (rev sub) (rev s) = contains sub s.
Proof.
  apply eq_true_iff_eq. rewrite !contains_iff. split.
  - intros (pre & post & E). exists (rev post), (rev pre).
    rewrite <- (rev_involutive s), E, !rev_app_distr, rev_involutive.
    now rewrite app_assoc.
  - intros (pre & post & ->). exists (rev post), (rev pre).
    now rewrite !rev_app_distr, app_assoc.
Qed.

Lemma contains_lstrip (a : N) (sub s : pystr) :
  is_space a = false ->
  contains (a :: sub) (lstrip s) = contains (a :: sub) s.
Proof.
  intros Ha. induction s as [|c s IH]; [reflexivity|].
  simpl lstrip. destruct (is_space c) eqn:Hc; [|reflexivity].
  rewrite IH. simpl.
  destruct (N.eqb_spec a c) as [->|_]; [congruence|reflexivity].
Qed.

(** A word that neither starts nor ends with white space is found in a
    trimmed name exactly when it is found in the name. *)
Lemma contains_strip (a b : N) (sub front s : pystr) :
  is_space a = false -> is_space b = false ->
  a :: sub = front ++ [b] ->
  contains (a :: sub) (strip s) = contains (a :: sub) s.
Proof.
  intros Ha Hb E. unfold strip, rstrip.
  rewrite <- (@contains_lstrip a sub s Ha).
  rewrite <- (contains_rev (a :: sub) (rev (lstrip (rev (lstrip s))))).
  rewrite rev_involutive, E, rev_app_distr. simpl.
  rewrite contains_lstrip by assumption.
  rewrite <- (contains_rev (front ++ [b]) (lstrip s)).
  now rewrite rev_app_distr.
Qed.

Lemma mentions_cumulative_strip (n : pystr) :
  mentions_cumulative (strip n) = mentions_cumulative n.
Proof.
  unfold mentions_cumulative. f_equal.
  - now apply (@contains_strip 67%N 101%N _ (u "Cumulativ")).
  - now apply (@contains_strip 67%N 69%N _ (u "CUMULATIV")).
Qed.

Lemma mentions_daily_strip (n : pystr) :
  mentions_daily (strip n) = mentions_daily n.
Proof.
  unfold mentions_daily. f_equal.
  - now apply (@contains_strip 68%N 121%N _ (u "Dail")).
  - now apply (@contains_strip 68%N 89%N _ (u "DAIL")).
Qed.

Lemma find_map_strip (p : pystr -> bool) (names : list pystr) :
  (forall n, p (strip n) = p n) ->
  find p (map strip names) = option_map strip (find p names).
Proof.
  intros Hp. induction names as [|n ns IH]; simpl; [reflexivity|].
  rewrite Hp. destruct (p n); [reflexivity | exact IH].
Qed.

(** X4. Trimming never changes which column is found: a header name
    passes the cumulative test, or the daily test, exactly when its
    trimmed form does, so the name the loader settles on is the trimmed
    form of the first header name, other than the date column's, that
    contains the word as the file writes it. *)
Theorem search_ignores_trimming (V : Type) (raw : RawFrame V) :
  (forall n, mentions_cumulative (strip n) = mentions_cumulative n) /\
  (forall n, mentions_daily (strip n) = mentions_daily n) /\
  find mentions_cumulative (trimmed_names raw) =
    option_map strip
      (find mentions_cumulative
         (filter (fun n => negb (str_eqb (u "Date") n)) (raw_columns raw))) /\
  find mentions_daily (trimmed_names raw) =
    option_map strip
      (find mentions_daily
         (filter (fun n => negb (str_eqb (u "Date") n)) (raw_columns raw))).
Proof.
  split; [exact mentions_cumulative_strip|].
  split; [exact mentions_daily_strip|].
  unfold trimmed_names. split; apply find_map_strip.
  - exact mentions_cumulative_strip.
  - exact mentions_daily_strip.
Qed.

Lemma split_at_first (x : N) (l1 l2 r1 r2 : pystr) :
  ~ In x l1 -> ~ In x l2 ->
  l1 ++ x :: r1 = l2 ++ x :: r2 -> l1 = l2 /\ r1 = r2.
Proof.
  revert l2; induction l1 as [|a l1 IH]; intros [|b l2] H1 H2 E;
    simpl in *.
  - now injection E.
  - injection E as -> _. exfalso. apply H2. now left.
  - injection E as -> _. exfalso. apply H1. now left.
  - injection E as -> E.
    destruct (IH l2) as [-> ->]; auto.
Qed.

(** X5. Two metrics written without a hyphen never share a file: the
    file name determines the metric and the denomination. *)
Theorem file_name_of_injective (data_type base_type data_type' base_type'
    : pystr) :
  ~ In 45%N data_type -> ~ In 45%N data_type' ->
  file_name_of data_type base_type = file_name_of data_type' base_type' ->
  data_type = data_type' /\ base_type = base_type'.
Proof.
  intros H H' E. unfold file_name_of in E.
  change (u " - ETH - ") with ([32%N] ++ 45%N :: u " ETH - ") in E.
  rewrite <- !app_assoc in E. rewrite !(app_assoc _ [32%N]) in E.
  apply split_at_first in E as [E1 E2].
  - apply app_inv_tail in E1. split; [assumption|].
    apply app_inv_head in E2. now apply app_inv_tail in E2.
  - intros I. apply in_app_or in I as [I|[I|[]]]; [auto | discriminate I].
  - intros I. apply in_app_or in I as [I|[I|[]]]; [auto | discriminate I].
Qed.

Lemma file_name_of_injective_witness :
  ~ In 45%N (u "PnL") /\ ~ In 45%N (u "Fee") /\
  (file_name_of (u "PnL") (u "USDBased") =
   file_name_of (u "Fee") (u "USDBased") -> False).
Proof.
  assert (A : ~ In 45%N (u "PnL"))
    by (intros [E|[E|[E|[]]]]; discriminate E).
  assert (B : ~ In 45%N (u "Fee"))
    by (intros [E|[E|[E|[]]]]; discriminate E).
  split; [exact A|]. split; [exact B|].
  intros E.
  destruct (@file_name_of_injective (u "PnL") (u "USDBased") (u "Fee")
              (u "USDBased") A B E) as [F _].
  discriminate F.
Defined.

(** * The presenter, further *)

Lemma positions_nonempty_In (c : pystr) (names : list pystr) :
  positions (str_eqb c) names <> [] -> In c names.
Proof.
  intros H.
  destruct (filter (str_eqb c) names) as [|x l] eqn:F.
  - exfalso. apply H. apply length_zero_iff_nil.
    now rewrite positions_length, F.
  - assert (I : In x (filter (str_eqb c) names)) by (rewrite F; now left).
    apply filter_In in I as [I E]. apply str_eqb_eq in E. now subst.
Qed.

Lemma nonempty_last (A : Type) (l : list A) :
  l <> [] -> exists init e, l = init ++ [e].
Proof.
  intros H. destruct (exists_last H) as (init & e & ->). now exists init, e.
Qed.

Section PresenterProperties.

Variables V D : Type.
Variable path_exists : pystr -> bool.
Variable read_csv : pystr -> Exn + RawFrame V.
Variable to_datetime : list (cell V) -> Exn + list D.
Variable format_value : cell V -> pystr -> Exn + pystr.

Notation frame := (DataFrame V D).
Notation load := (load_data path_exists read_csv to_datetime).
Notation display := (display_data_block (D := D) format_value).

Lemma not_empty_inv (d : frame) :
  empty d = false ->
  exists c rest init e, columns d = c :: rest /\ rows d = init ++ [e].
Proof.
  unfold empty. intros H. apply orb_false_iff in H as [Hc Hr].
  destruct (columns d) as [|c rest]; [discriminate|].
  destruct (rows d) as [|x l] eqn:R; [discriminate|].
  destruct (@nonempty_last _ (x :: l)) as (init & e & E); [discriminate|].
  exists c, rest, init, e. now rewrite E.
Qed.

(** The display of a frame that is not empty, in its three courses. *)
Lemma display_cases title (d : frame) unit c rest init e :
  empty d = false ->
  columns d = c :: rest ->
  rows d = init ++ [e] ->
  let spec := if contains (u "Cumulative") c then u ".2f" else u ".4f" in
  (In c rest /\
   display title (Some d) unit =
   ([StContainer true; StSubheader title],
    inl (TypeError
           (u "unsupported format string passed to Series.__format__")))) \/
  (~ In c rest /\ exists err,
     format_value (iloc (snd e) 0) spec = inl err /\
     display title (Some d) unit =
     ([StContainer true; StSubheader title], inl err)) \/
  (~ In c rest /\ exists shown,
     format_value (iloc (snd e) 0) spec = inr shown /\
     display title (Some d) unit =
     ([StContainer true;
       StSubheader title;
       StMetric (u "Latest " ++ c) (shown ++ u " " ++ unit);
       StLineChart d true 250;
       StExpander (MEMO ++ u " View recent raw data") false;
       StDataframe (tail 7 d) true],
      inr tt)).
Proof.
  intros He Hc Hr spec.
  unfold display_data_block, first_column. rewrite He, Hc.
  cbn [bind emit lift app].
  unfold latest. rewrite Hc, Hr, rev_app_distr, positions_cons, str_eqb_refl.
  cbn [rev app].
  destruct (positions (str_eqb c) rest) as [|j js] eqn:P.
  - assert (N : ~ In c rest).
    { intros I. apply positions_In in I. congruence. }
    cbn [map bind emit lift app py_format snd fst]. fold spec.
    destruct (format_value (iloc (snd e) 0) spec) as [err|shown] eqn:F.
    + right; left. split; [assumption|]. now exists err.
    + right; right. split; [assumption|]. now exists shown.
  - left. split; [|reflexivity].
    apply positions_nonempty_In. rewrite P. discriminate.
Qed.

(** X6. The guard on empty frames makes the look-ups safe: whatever the
    frame, the presenter raises only while formatting the latest value,
    with the error of the formatter, or with the type error of a label
    borne by several columns; the bordered container then holds the title
    and nothing else. A frame without columns or without rows shows the
    placeholder. *)
Theorem display_data_block_failure title (df : option frame) unit l err :
  display title df unit = (l, inl err) ->
  exists d c rest init e,
    df = Some d /\ columns d = c :: rest /\ rows d = init ++ [e] /\
    l = [StContainer true; StSubheader title] /\
    ((In c rest /\
      err = TypeError
              (u "unsupported format string passed to Series.__format__")) \/
     (~ In c rest /\
      format_value (iloc (snd e) 0)
        (if contains (u "Cumulative") c then u ".2f" else u ".4f")
      = inl err)).
Proof.
  intros E. destruct df as [d|]; [|discriminate].
  destruct (empty d) eqn:He.
  - unfold display_data_block in E. rewrite He in E. discriminate.
  - destruct (not_empty_inv _ He) as (c & rest & init & e & Hc & Hr).
    exists d, c, rest, init, e.
    destruct (@display_cases title _ unit _ _ _ _ He Hc Hr)
      as [(I & X)|[(N & x & F & X)|(N & x & F & X)]];
      rewrite X in E; try discriminate; injection E as <- <-;
      repeat split; auto.
Qed.

(** X7. The table under the chart holds the last seven rows of the frame,
    all of them when there are fewer, in their order and under the same
    labels; the chart is given the whole frame. *)
Theorem display_data_block_recent_rows title (d : frame) unit l :
  display title (Some d) unit = (l, inr tt) ->
  empty d = false ->
  exists shown t,
    l = [StContainer true;
         StSubheader title;
         StMetric (u "Latest " ++ hd [] (columns d)) (shown ++ u " " ++ unit);
         StLineChart d true 250;
         StExpander (MEMO ++ u " View recent raw data") false;
         StDataframe t true] /\
    columns t = columns d /\
    (exists front, rows d = front ++ rows t) /\
    List.length (rows t) = Nat.min 7 (List.length (rows d)).
Proof.
  intros E He.
  destruct (not_empty_inv _ He) as (c & rest & init & e & Hc & Hr).
  destruct (@display_cases title _ unit _ _ _ _ He Hc Hr)
    as [(I & X)|[(N & x & F & X)|(N & shown & F & X)]];
    rewrite X in E; try discriminate. injection E as <-.
  exists shown, (tail 7 d).
  split; [now rewrite Hc|]. split; [reflexivity|]. split.
  - exists (firstn (List.length (rows d) - 7) (rows d)).
    unfold tail. cbn [rows]. now rewrite firstn_skipn.
  - unfold tail. cbn [rows]. rewrite length_skipn.
    destruct (Nat.min_spec 7 (List.length (rows d))) as [[L ->]|[L ->]]; lia.
Qed.

Lemma cumulative_label_contains (data_type : pystr) :
  contains (u "Cumulative") (data_type ++ u " Cumulative") = true.
Proof.
  apply contains_iff. exists (data_type ++ [32%N]), [].
  now rewrite <- app_assoc, app_nil_r.
Qed.

End PresenterProperties.

(** * The page *)

Section PageProperties.

Variables V D : Type.
Variable path_exists : pystr -> bool.
Variable read_csv : pystr -> Exn + RawFrame V.
Variable to_datetime : list (cell V) -> Exn + list D.
Variable format_value : cell V -> pystr -> Exn + pystr.

Notation frame := (DataFrame V D).
Notation load := (load_data path_exists read_csv to_datetime).
Notation display := (display_data_block (D := D) format_value).
Notation page := (dashboard path_exists read_csv to_datetime format_value).
Notation render_block :=
  (render path_exists read_csv to_datetime format_value).
Notation outcome :=
  (block_outcome path_exists read_csv to_datetime format_value).
Notation frame_of := (loaded_frame path_exists read_csv to_datetime).

Lemma dashboard_statements :
  page = sequence (statements path_exists read_csv to_datetime format_value).
Proof. reflexivity. Qed.

Lemma load_returns data_type base_type :
  exists log res, load data_type base_type = (log, inr res).
Proof.
  unfold load_data.
  destruct (path_exists (file_name_of data_type base_type)); simpl.
  - destruct (load_body read_csv to_datetime data_type
                (file_name_of data_type base_type)) as [l [e|a]]; simpl;
      eauto.
  - eauto.
Qed.

Lemma load_missing data_type base_type :
  path_exists (file_name_of data_type base_type) = false ->
  load data_type base_type =
  ([SidebarError (SIREN ++ u " File missing: "
                  ++ file_name_of data_type base_type ++ u " not found")],
   inr None).
Proof. intros H. unfold load_data. now rewrite H. Qed.

Lemma sequence_cons (m : Page V D unit) (rest : list (Page V D unit)) :
  rest <> [] ->
  sequence (m :: rest) = page_bind m (fun _ => sequence rest).
Proof. destruct rest; [congruence | reflexivity]. Qed.

Lemma sequence_outcome (ms : list (Page V D unit)) :
  snd (sequence ms) = first_error (map snd ms).
Proof.
  induction ms as [|m rest IH]; [reflexivity|].
  destruct rest as [|m' rest'].
  - simpl. now destruct m as [l [e|[]]].
  - rewrite sequence_cons by discriminate.
    remember (m' :: rest') as tl.
    destruct m as [l [e|[]]]; [reflexivity|].
    cbn [map first_error snd page_bind].
    rewrite <- IH. now destruct (sequence tl).
Qed.

(** A sequence that raises stops in the statement that raised. *)
Lemma sequence_failure (ms : list (Page V D unit)) log e :
  sequence ms = (log, inl e) ->
  exists m front l, In m ms /\ m = (l, inl e) /\ log = front ++ l.
Proof.
  revert log; induction ms as [|m rest IH]; intros log E; [discriminate|].
  destruct rest as [|m' rest'].
  - exists m, [], log. simpl in E. subst m.
    split; [now left|]. split; reflexivity.
  - rewrite sequence_cons in E by discriminate.
    remember (m' :: rest') as tl eqn:T.
    destruct m as [l [e0|[]]]; unfold page_bind in E.
    + injection E as <- <-. exists (l, inl e0), [], l.
      split; [now left|]. split; reflexivity.
    + destruct (sequence tl) as [l' r'] eqn:S.
      injection E as <- ->.
      destruct (IH _ eq_refl) as (m0 & front & l0 & I & Em & El).
      exists m0, (l ++ front), l0.
      split; [now right|]. split; [assumption|].
      now rewrite El, app_assoc.
Qed.

Lemma render_snd place icon key base_type unit name :
  getitem data_map key = inr name ->
  snd (render_block place icon key base_type unit) =
  snd (display (icon ++ u " " ++ name) (frame_of key base_type) unit).
Proof.
  intros G. unfold render, loaded_frame. rewrite G.
  destruct (load_returns key base_type) as (log & res & E). rewrite E.
  cbn. now destruct (display (icon ++ u " " ++ name) res unit) as [l r].
Qed.

Lemma display_failure_log title (df : option frame) unit l e :
  display title df unit = (l, inl e) ->
  df <> None /\ l = [StContainer true; StSubheader title].
Proof.
  intros E. destruct df as [d|]; [|discriminate].
  split; [discriminate|].
  destruct (empty d) eqn:He.
  - unfold display_data_block in E. rewrite He in E. discriminate.
  - destruct (not_empty_inv _ He) as (c & rest & init & x & Hc & Hr).
    destruct (@display_cases _ _ format_value title _ unit _ _ _ _ He Hc Hr)
      as [(I & X)|[(N & y & F & X)|(N & y & F & X)]];
      rewrite X in E; try discriminate; now injection E as <- _.
Qed.

Lemma render_failure place icon key base_type unit name l e :
  getitem data_map key = inr name ->
  render_block place icon key base_type unit = (l, inl e) ->
  snd (display (icon ++ u " " ++ name) (frame_of key base_type) unit)
    = inl e /\
  frame_of key base_type <> None /\
  exists front,
    l = front ++ [Within place (StContainer true);
                  Within place (StSubheader (icon ++ u " " ++ name))].
Proof.
  intros G R.
  assert (S : snd (render_block place icon key base_type unit) = inl e)
    by now rewrite R.
  rewrite (render_snd _ _ _ _ _ G) in S. split; [assumption|].
  unfold render, loaded_frame in *. rewrite G in R.
  destruct (load_returns key base_type) as (log & res & E).
  rewrite E in *. cbn in R, S |- *.
  destruct (display (icon ++ u " " ++ name) res unit) as [l' r'] eqn:X.
  cbn in R, S. subst r'. injection R as <-.
  destruct (display_failure_log _ _ _ X) as [Hres ->].
  split; [assumption|].
  exists (map (Within place) log). reflexivity.
Qed.

(** X9. The page ends as its blocks do: it raises the first exception
    raised by the display of one of the eight blocks, taken in the order
    PnL, Fee, Funding, Volume for USDBased and then for CoinBased, and it
    completes when none of them raises. Nothing else at the top level
    raises, the loading in particular. *)
Theorem dashboard_outcome :
  snd page = first_error (map outcome (blocks)).
Proof.
  rewrite dashboard_statements, sequence_outcome.
  unfold statements, blocks. cbn [map].
  rewrite !(@render_snd _ _ (u "PnL") _ _ (u "Profit and Loss (PnL)") eq_refl).
  rewrite !(@render_snd _ _ (u "Fee") _ _ (u "Transaction Fees (Fee)") eq_refl).
  rewrite !(@render_snd _ _ (u "Funding") _ _ (u "Funding Costs (Funding)") eq_refl).
  rewrite !(@render_snd _ _ (u "Volume") _ _ (u "Trading Volume (Volume)") eq_refl).
  reflexivity.
Qed.

(** X10. A block that raises stops the page where it stands: the page
    raises only in a block whose file was loaded into a frame, the last
    things shown are the bordered container of that block and its title,
    and nothing that follows in the script is run. *)
Theorem dashboard_failure log e :
  page = (log, inl e) ->
  exists place icon key base_type unit front,
    In (place, icon, key, base_type, unit) blocks /\
    outcome (place, icon, key, base_type, unit) = inl e /\
    frame_of key base_type <> None /\
    log = front ++ [Within place (StContainer true);
                    Within place (StSubheader (title_of icon key))].
Proof.
  intros E. rewrite dashboard_statements in E.
  apply sequence_failure in E as (m & front & l & I & Em & ->).
  unfold statements in I.
  repeat (destruct I as [<-|I]; [try discriminate Em|]);
    try contradiction.
  all: match type of Em with
       | render _ _ _ _ ?place ?icon ?key ?bt ?unit = _ =>
           exists place, icon, key, bt, unit;
           destruct (@render_failure place icon key bt unit _ l e
                       (eq_refl : getitem data_map key = inr _) Em)
             as (O & F & front' & ->)
       end.
  all: exists (front ++ front'); rewrite app_assoc.
  all: split; [unfold blocks; simpl; tauto|].
  all: split; [exact O|]. all: split; [exact F|reflexivity].
Qed.

(** X11. Missing files do not stop the page: when none of the eight files
    exists the page completes, and after each heading every block leaves
    a sidebar error naming its file and the "no data" placeholder under
    its title, in the order of the script. *)
Theorem dashboard_all_missing :
  (forall data_type base_type,
     In data_type [u "PnL"; u "Fee"; u "Funding"; u "Volume"] ->
     In base_type [u "USDBased"; u "CoinBased"] ->
     path_exists (file_name_of data_type base_type) = false) ->
  page =
  ([SetPageConfig (u "USDBased & CoinBased Trading Data Dashboard")
      (u "wide") (u "expanded");
    StTitle (BAR_CHART ++ u " Trading Strategy Data Analytics Dashboard");
    StDivider;
    StHeader (BANKNOTE ++ u " USDBased - USD Denominated Data");
    StDivider]
   ++ missing_block V D None CHART_UP (u "PnL") (u "USDBased")
   ++ [StWrite []; StColumns 3 (u "medium")]
   ++ missing_block V D (Some 1) MONEY_BAG (u "Fee") (u "USDBased")
   ++ missing_block V D (Some 2) MONEY_WINGS (u "Funding") (u "USDBased")
   ++ missing_block V D (Some 3) BAR_CHART (u "Volume") (u "USDBased")
   ++ [StMarkdown (u "---");
       StWrite [];
       StHeader (COIN ++ u " CoinBased - Coin Denominated Data");
       StDivider]
   ++ missing_block V D None CHART_UP (u "PnL") (u "CoinBased")
   ++ [StWrite []; StColumns 3 (u "medium")]
   ++ missing_block V D (Some 4) MONEY_BAG (u "Fee") (u "CoinBased")
   ++ missing_block V D (Some 5) MONEY_WINGS (u "Funding") (u "CoinBased")
   ++ missing_block V D (Some 6) BAR_CHART (u "Volume") (u "CoinBased"),
   inr tt).
Proof.
  intros H.
  assert (L : forall data_type base_type,
             In data_type [u "PnL"; u "Fee"; u "Funding"; u "Volume"] ->
             In base_type [u "USDBased"; u "CoinBased"] ->
             load data_type base_type =
             ([SidebarError (SIREN ++ u " File missing: "
                             ++ file_name_of data_type base_type
                             ++ u " not found")],
              inr None)).
  { intros data_type base_type Hd Hb. apply load_missing. now apply H. }
  unfold dashboard, render.
  rewrite !L by (simpl; tauto).
  reflexivity.
Qed.

End PageProperties.

(** * The directories, further *)

Lemma load_data_frame_shape_witness :
  exists label,
    (label = u "PnL" ++ u " Cumulative" \/ label = u "PnL" ++ u " Daily") /\
    [u "PnL Cumulative"] <> [] /\
    Forall (eq label) [u "PnL Cumulative"].
Proof.
  exact (proj1 (proj2
    (@load_data_frame_shape _ _ Sample.path_exists Sample.read_csv
       Sample.to_datetime (u "PnL") (u "USDBased")
       [Sample.loaded "PnL" "USDBased"]
       {| columns := [u "PnL Cumulative"];
          rows := [ (Some 20250407%N, [Sample.num 1005000]);
                    (Some 20250408%N, [Sample.num 1022500]) ] |}
       load_pnl_usd))).
Defined.

Lemma load_data_absent_is_reported_witness :
  exists msg,
    [Sample.loaded "Fee" "USDBased";
     StWarning (WARNING_SIGN
                ++ u " No 'Cumulative' or 'Daily' columns found in "
                ++ Sample.records "Fee" "USDBased")]
    = [SidebarError msg] \/
    [Sample.loaded "Fee" "USDBased";
     StWarning (WARNING_SIGN
                ++ u " No 'Cumulative' or 'Daily' columns found in "
                ++ Sample.records "Fee" "USDBased")]
    = [StError msg] \/
    [Sample.loaded "Fee" "USDBased";
     StWarning (WARNING_SIGN
                ++ u " No 'Cumulative' or 'Daily' columns found in "
                ++ Sample.records "Fee" "USDBased")]
    = [Sample.loaded "Fee" "USDBased"; StError msg] \/
    [Sample.loaded "Fee" "USDBased";
     StWarning (WARNING_SIGN
                ++ u " No 'Cumulative' or 'Daily' columns found in "
                ++ Sample.records "Fee" "USDBased")]
    = [Sample.loaded "Fee" "USDBased"; StWarning msg].
Proof.
  assert (K : In (u "Fee") [u "PnL"; u "Volume"; u "Fee"; u "Funding"])
    by (right; right; left; reflexivity).
  assert (E : Sample.load_data (u "Fee") (u "USDBased") =
              ([Sample.loaded "Fee" "USDBased";
                StWarning (WARNING_SIGN
                           ++ u " No 'Cumulative' or 'Daily' columns found in "
                           ++ Sample.records "Fee" "USDBased")],
               inr None)) by (vm_compute; reflexivity).
  exact (@load_data_absent_is_reported _ _ Sample.path_exists
           Sample.read_csv Sample.to_datetime (u "Fee") (u "USDBased") _ K E).
Defined.

Lemma load_data_reports_failure_witness :
  Sample.path_exists (Sample.records "Funding" "Paired") = true /\
  Sample.load_data (u "Funding") (u "Paired") =
  ([Sample.loaded "Funding" "Paired";
    StError (u "Error processing " ++ Sample.records "Funding" "Paired"
             ++ u ": "
             ++ str_of_exn (ValueError (u "Unknown datetime string format")))],
   inr None).
Proof.
  assert (X : Sample.path_exists (Sample.records "Funding" "Paired") = true)
    by reflexivity.
  split; [exact X|].
  exact (proj2 (@load_data_reports_failure _ _ Sample.path_exists
                  Sample.read_csv Sample.to_datetime (u "Funding")
                  (u "Paired") X)
           (Sample.raw_of "Funding" "Paired")
           (ValueError (u "Unknown datetime string format"))
           eq_refl eq_refl).
Defined.

(** A text value under a cumulative label: the formatter refuses it, and
    the block stops after its title. *)
Lemma display_data_block_failure_witness :
  exists d c rest init e,
    Some {| columns := [u "PnL Cumulative"];
            rows := [ (Some 20250407%N, [Sample.txt "n/a"]) ] |} = Some d /\
    columns d = c :: rest /\ rows d = init ++ [e] /\
    ((In c rest /\
      ValueError (u "Unknown format code 'f' for object of type 'str'") =
      TypeError (u "unsupported format string passed to Series.__format__"))
     \/
     (~ In c rest /\
      Sample.format_value (iloc (snd e) 0)
        (if contains (u "Cumulative") c then u ".2f" else u ".4f")
      = inl (ValueError
               (u "Unknown format code 'f' for object of type 'str'")))).
Proof.
  destruct (@display_data_block_failure _ _ Sample.format_value (u "PnL")
              (Some {| columns := [u "PnL Cumulative"];
                       rows := [ (Some 20250407%N, [Sample.txt "n/a"]) ] |})
              (u "$")
              [StContainer true; StSubheader (u "PnL")]
              (ValueError
                 (u "Unknown format code 'f' for object of type 'str'"))
              eq_refl)
    as (d & c & rest & init & e & Hd & Hc & Hr & _ & H).
  exists d, c, rest, init, e. repeat split; assumption.
Defined.

(** Eight daily values: the table holds the last seven. *)
Lemma display_data_block_recent_rows_witness :
  let d := {| columns := [u "Fee Daily"];
              rows := map (fun k => (Some (20250407 + k)%N,
                                     [Sample.num (10 * k)]))
                        [0; 1; 2; 3; 4; 5; 6; 7]%N |} in
  exists shown t,
    fst (Sample.display_data_block (u "Fees") (Some d) (u "ETH")) =
    [StContainer true;
     StSubheader (u "Fees");
     StMetric (u "Latest " ++ hd [] (columns d)) (shown ++ u " " ++ u "ETH");
     StLineChart d true 250;
     StExpander (MEMO ++ u " View recent raw data") false;
     StDataframe t true] /\
    columns t = columns d /\
    (exists front, rows d = front ++ rows t) /\
    List.length (rows t) = Nat.min 7 (List.length (rows d)).
Proof.
  intros d.
  destruct (@display_data_block_recent_rows _ _ Sample.format_value
              (u "Fees") d (u "ETH") _ eq_refl eq_refl)
    as (shown & t & E & R).
  exists shown, t. split; [exact E | exact R].
Defined.

(** Text in every file: the page stops in its first block. *)
Lemma dashboard_failure_witness :
  exists place icon key base_type unit front,
    In (place, icon, key, base_type, unit) blocks /\
    block_outcome Textual.path_exists Textual.read_csv Sample.to_datetime
      Sample.format_value (place, icon, key, base_type, unit)
    = inl (ValueError (u "Unknown format code 'f' for object of type 'str'"))
    /\
    loaded_frame Textual.path_exists Textual.read_csv Sample.to_datetime
      key base_type <> None /\
    fst Textual.dashboard =
    front ++ [Within place (StContainer true);
              Within place (StSubheader (title_of icon key))].
Proof.
  exact (@dashboard_failure _ _ Textual.path_exists Textual.read_csv
           Sample.to_datetime Sample.format_value _ _ eq_refl).
Defined.

Lemma dashboard_all_missing_witness :
  snd Deserted.dashboard = inr tt /\
  List.length (fst Deserted.dashboard) = 29.
Proof.
  unfold Deserted.dashboard.
  rewrite (@dashboard_all_missing _ _ Deserted.path_exists Sample.read_csv
             Sample.to_datetime Sample.format_value
             (fun _ _ _ _ => eq_refl)).
  split; reflexivity.
Defined.

(** * The selected column and the file *)

Section SelectedColumn.

Variables V D : Type.
Variable path_exists : pystr -> bool.
Variable read_csv : pystr -> Exn + RawFrame V.
Variable to_datetime : list (cell V) -> Exn + list D.
Variable format_value : cell V -> pystr -> Exn + pystr.

Notation frame := (DataFrame V D).
Notation load := (load_data path_exists read_csv to_datetime).
Notation parsed_as := (parsed path_exists read_csv to_datetime).
Notation display := (display_data_block (D := D) format_value).
Notation caption f := (SidebarCaption (V := V) (D := D) (u "Loaded: " ++ f)).

(** On a file that is read and dated, the loader returns the selection of
    the label the choice settles on, and absent without an error when it
    settles on none. *)
Lemma load_selected data_type base_type raw (df : frame) :
  parsed_as data_type base_type raw df ->
  match selected_label data_type (map strip (columns df)) with
  | Some c =>
      exists label,
        (label = data_type ++ u " Cumulative" \/
         label = data_type ++ u " Daily") /\
        load data_type base_type =
        ([caption (file_name_of data_type base_type)],
         inr (Some (selection (strip_columns df) c label)))
  | None =>
      exists log,
        load data_type base_type = (log, inr None) /\
        forall msg, ~ In (StError msg) log
  end.
Proof.
  intros P. unfold selected_label.
  destruct (str_in data_type [u "PnL"; u "Fee"; u "Funding"]) eqn:Hin.
  - apply str_in_In in Hin.
    destruct (find mentions_cumulative (map strip (columns df)))
      as [c|] eqn:Fc.
    + exists (data_type ++ u " Cumulative"). split; [now left|].
      exact (load_cumulative P Hin Fc).
    + destruct (find mentions_daily (map strip (columns df)))
        as [c|] eqn:Fd.
      * exists (data_type ++ u " Daily"). split; [now right|].
        exact (load_daily_fallback P Hin Fc Fd).
      * eexists. split; [exact (load_no_column P Hin Fc Fd)|].
        intros msg [H|[H|[]]]; discriminate H.
  - destruct (str_eqb data_type (u "Volume")) eqn:Hv.
    + apply str_eqb_eq in Hv. subst data_type.
      destruct (find mentions_daily (map strip (columns df)))
        as [c|] eqn:Fd.
      * exists (u "Volume" ++ u " Daily"). split; [now right|].
        exact (load_volume_daily P Fd).
      * eexists. split; [exact (load_volume_no_daily P Fd)|].
        intros msg [H|[H|[]]]; discriminate H.
    + eexists. split.
      * apply (load_other_kind P).
        apply not_true_iff_false in Hin. rewrite str_in_In in Hin.
        apply str_eqb_neq in Hv.
        intros [E|[E|[E|[E|[]]]]]; subst; simpl in Hin; tauto.
      * intros msg [H|[]]. discriminate H.
Qed.

(** The header names at the selected positions trim to the selected
    label. *)
Lemma selected_positions_names (raw : RawFrame V) (c : pystr) k :
  In k (selected_positions raw c) ->
  strip (nth k (raw_columns raw) []) = c.
Proof.
  unfold selected_positions. intros H. apply positions_sat in H.
  apply andb_true_iff in H as [_ H]. apply str_eqb_eq in H. now symmetry.
Qed.

(** C4, as the code has it. For Volume only the daily rule is used, with
    its two spellings: the outcome is decided by the first trimmed name
    containing "Daily" or "DAILY", whatever columns contain "Cumulative".
    With such a name the output is labelled "Volume Daily", the name of
    every column selected from the file contains "Daily" or "DAILY" (so a
    column whose name contains "Cumulative" is selected only when its
    name contains one of them too), and the rows returned hold the values
    of these columns; with no such name the loader warns and returns
    absent. *)
Theorem load_data_volume_daily_only base_type raw (df : frame) :
  parsed_as (u "Volume") base_type raw df ->
  let file_name := file_name_of (u "Volume") base_type in
  match find mentions_daily (map strip (columns df)) with
  | Some c =>
      exists r j dates,
        load (u "Volume") base_type = ([caption file_name], inr (Some r)) /\
        columns r <> [] /\
        Forall (eq (u "Volume Daily")) (columns r) /\
        selected_positions raw c <> [] /\
        (forall k, In k (selected_positions raw c) ->
                   mentions_daily (nth k (raw_columns raw) []) = true) /\
        positions (str_eqb (u "Date")) (raw_columns raw) = [j] /\
        to_datetime (map (fun row => iloc row j) (raw_rows raw))
        = inr dates /\
        rows r =
        map (fun e => (fst e, take (selected_positions raw c) (snd e)))
          (filter (fun e => defined_at (selected_positions raw c) (snd e))
             (combine dates (raw_rows raw)))
  | None =>
      load (u "Volume") base_type =
      ([caption file_name;
        StWarning (WARNING_SIGN ++ u " No 'Daily' columns found in "
                   ++ file_name)],
       inr None)
  end.
Proof.
  intros P file_name.
  destruct (find mentions_daily (map strip (columns df))) as [c|] eqn:Fd.
  - pose proof (find_some _ _ Fd) as [Hin Hc].
    destruct P as (Hex & Hrd & Hstd).
    destruct (@selection_rows _ _ to_datetime raw df c (u "Volume Daily")
                Hstd) as (j & dates & Hj & Hd & Hrows).
    destruct (@selection_labelled _ _ (strip_columns df) c
                (u "Volume Daily") Hin) as [Hne Hall].
    exists (selection (strip_columns df) c (u "Volume Daily")), j, dates.
    split; [apply (@load_volume_daily _ _ path_exists read_csv to_datetime
                     base_type raw df c); [now repeat split|assumption]|].
    repeat split; try assumption.
    + rewrite (@standardize_date_columns _ _ to_datetime raw df Hstd) in Hin.
      apply in_map_iff in Hin as (n & Hs & Hn).
      apply filter_In in Hn as [Hn Hp].
      unfold selected_positions. apply positions_some with n; [assumption|].
      now rewrite Hp, Hs, str_eqb_refl.
    + intros k Hk. apply selected_positions_names in Hk.
      rewrite <- mentions_daily_strip, Hk. exact Hc.
  - now apply load_volume_no_daily with raw df.
Qed.

(** C5, as the code has it. The date column is looked up under the exact
    name Date, as it stands in the header and before any trimming: when no
    header name is exactly Date the lookup fails, the error is reported
    and the result is absent. When exactly one is and its entries parse,
    the value column is chosen among the trimmed names of the other
    columns; the rows of the returned frame are then indexed by the dates
    parsed from that column, each row under its own date, and when no
    column is chosen the result is absent without an error. *)
Theorem load_data_date_column_exact data_type base_type raw :
  let file_name := file_name_of data_type base_type in
  path_exists file_name = true ->
  read_csv file_name = inr raw ->
  (~ In (u "Date") (raw_columns raw) ->
   load data_type base_type =
   ([caption file_name;
     StError (u "Error processing " ++ file_name ++ u ": " ++ u "'Date'")],
    inr None)) /\
  (forall j dates,
     positions (str_eqb (u "Date")) (raw_columns raw) = [j] ->
     to_datetime (map (fun r => iloc r j) (raw_rows raw)) = inr dates ->
     match selected_label data_type (trimmed_names raw) with
     | Some c =>
         exists r,
           load data_type base_type =
           ([caption file_name], inr (Some r)) /\
           rows r =
           map (fun e => (fst e, take (selected_positions raw c) (snd e)))
             (filter (fun e => defined_at (selected_positions raw c) (snd e))
                (combine dates (raw_rows raw)))
     | None =>
         exists log,
           load data_type base_type = (log, inr None) /\
           forall msg, ~ In (StError msg) log
     end).
Proof.
  intros file_name Hex Hrd. split.
  - intros Hno. unfold load_data, load_body. fold file_name.
    rewrite Hex, Hrd. simpl. unfold standardize_date.
    rewrite positions_none; [reflexivity|].
    intros n Hn. apply str_eqb_neq. intros <-. contradiction.
  - intros j dates Hj Hd.
    destruct (standardize_date to_datetime raw) as [e|df] eqn:Hstd.
    { unfold standardize_date in Hstd. rewrite Hj, Hd in Hstd.
      discriminate. }
    assert (P : parsed_as data_type base_type raw df) by now repeat split.
    pose proof (load_selected P) as L.
    unfold trimmed_names. rewrite <- (@standardize_date_columns _ _ to_datetime raw df Hstd).
    destruct (selected_label data_type (map strip (columns df)))
      as [c|]; [|exact L].
    destruct L as (label & _ & L).
    exists (selection (strip_columns df) c label). split; [exact L|].
    destruct (@selection_rows _ _ to_datetime raw df c label Hstd)
      as (j' & dates' & Hj' & Hd' & Hrows).
    rewrite Hj in Hj'. injection Hj' as <-.
    rewrite Hd in Hd'. injection Hd' as <-.
    exact Hrows.
Qed.

Lemma uniform_rest (label : pystr) (rest : list pystr) :
  Forall (eq label) rest ->
  (~ In label rest -> rest = []) /\
  (In label rest -> exists rest', rest = label :: rest').
Proof.
  intros H. destruct rest as [|x rest']; [split; [easy|contradiction]|].
  inversion H; subst. split.
  - intros N. exfalso. apply N. now left.
  - intros _. now exists rest'.
Qed.

(** X8. From the loader to the headline, for every frame the loader
    returns. The frame is the selection of the first trimmed name found by
    the cumulative search, labelled "<data type> Cumulative" and shown
    with the specification ".2f", or of the first name found by the daily
    search (for Volume, or when the cumulative search finds nothing),
    labelled "<data type> Daily" and shown with ".4f". Its display shows
    the placeholder when it has no row; otherwise, with one column, it
    shows the last row's value formatted with that specification under
    "Latest <label>", or stops after the title with the formatter's
    error; with several columns under the label it stops after the title
    with a type error. *)
Theorem loaded_headline_decimals data_type base_type log (r : frame) :
  load data_type base_type = (log, inr (Some r)) ->
  exists raw df c label spec,
    parsed_as data_type base_type raw df /\
    r = selection (strip_columns df) c label /\
    ((In data_type [u "PnL"; u "Fee"; u "Funding"] /\
      find mentions_cumulative (map strip (columns df)) = Some c /\
      label = data_type ++ u " Cumulative" /\ spec = u ".2f") \/
     ((data_type = u "Volume" \/
       (In data_type [u "PnL"; u "Fee"; u "Funding"] /\
        find mentions_cumulative (map strip (columns df)) = None)) /\
      find mentions_daily (map strip (columns df)) = Some c /\
      label = data_type ++ u " Daily" /\ spec = u ".4f")) /\
    forall title unit,
      (rows r = [] /\
       display title (Some r) unit =
       ([StInfo (u "No data available for " ++ title ++ u ".")], inr tt)) \/
      (exists init e,
         rows r = init ++ [e] /\
         ((columns r = [label] /\
           exists shown,
             format_value (iloc (snd e) 0) spec = inr shown /\
             display title (Some r) unit =
             ([StContainer true;
               StSubheader title;
               StMetric (u "Latest " ++ label) (shown ++ u " " ++ unit);
               StLineChart r true 250;
               StExpander (MEMO ++ u " View recent raw data") false;
               StDataframe (tail 7 r) true],
              inr tt)) \/
          (columns r = [label] /\
           exists err,
             format_value (iloc (snd e) 0) spec = inl err /\
             display title (Some r) unit =
             ([StContainer true; StSubheader title], inl err)) \/
          (exists rest,
             columns r = label :: label :: rest /\
             display title (Some r) unit =
             ([StContainer true; StSubheader title],
              inl (TypeError
                     (u "unsupported format string passed to Series.__format__")))))).
Proof.
  intros E.
  destruct (@load_some_cases _ _ path_exists read_csv to_datetime
              data_type base_type log r E)
    as (raw & df & c & P & _ & Hin & Hc).
  assert (S : exists label spec,
             r = selection (strip_columns df) c label /\
             spec = (if contains (u "Cumulative") label
                     then u ".2f" else u ".4f") /\
             ((In data_type [u "PnL"; u "Fee"; u "Funding"] /\
               find mentions_cumulative (map strip (columns df)) = Some c /\
               label = data_type ++ u " Cumulative" /\ spec = u ".2f") \/
              ((data_type = u "Volume" \/
                (In data_type [u "PnL"; u "Fee"; u "Funding"] /\
                 find mentions_cumulative (map strip (columns df)) = None)) /\
               find mentions_daily (map strip (columns df)) = Some c /\
               label = data_type ++ u " Daily" /\ spec = u ".4f"))).
  { destruct Hc as [(K & F & ->)|[(K & Fc & Fd & ->)|(-> & Fd & ->)]].
    - exists (data_type ++ u " Cumulative"), (u ".2f").
      split; [reflexivity|].
      split; [now rewrite cumulative_label_contains|].
      left. now repeat split.
    - exists (data_type ++ u " Daily"), (u ".4f").
      split; [reflexivity|]. split.
      + destruct K as [<-|[<-|[<-|[]]]]; reflexivity.
      + right. split; [right; now split|]. now repeat split.
    - exists (u "Volume" ++ u " Daily"), (u ".4f").
      split; [reflexivity|]. split; [reflexivity|].
      right. split; [now left|]. now repeat split. }
  destruct S as (label & spec & -> & Hs & Hcase).
  exists raw, df, c, label, spec.
  split; [assumption|]. split; [reflexivity|]. split; [assumption|].
  intros title unit.
  destruct (@selection_labelled _ _ (strip_columns df) c label Hin)
    as [Hne Hall].
  destruct (empty (selection (strip_columns df) c label)) eqn:He.
  - left. unfold display_data_block. rewrite He. split; [|reflexivity].
    unfold empty in He. apply orb_true_iff in He as [He|He].
    + destruct (columns (selection (strip_columns df) c label));
        [congruence|discriminate].
    + now destruct (rows (selection (strip_columns df) c label)).
  - right.
    destruct (not_empty_inv _ He) as (c0 & rest & init & e & Hc0 & Hr).
    assert (T : c0 = label /\ Forall (eq label) rest).
    { rewrite Hc0 in Hall. inversion Hall; now subst. }
    destruct T as [-> Hrest].
    destruct (uniform_rest Hrest) as [U1 U2].
    exists init, e. split; [assumption|].
    destruct (@display_cases _ _ format_value title _ unit _ _ _ _
                He Hc0 Hr)
      as [(I & Y)|[(N & x & F & Y)|(N & shown & F & Y)]].
    + right; right. destruct (U2 I) as (rest' & ->).
      exists rest'. now split.
    + right; left. rewrite (U1 N) in Hc0. split; [assumption|].
      exists x. rewrite Hs. now split.
    + left. rewrite (U1 N) in Hc0. split; [assumption|].
      exists shown. rewrite Hs. now split.
Qed.

End SelectedColumn.

(** * The directories, once more *)

(** Columns whose names contain the words in lower case: "cumulative pnl"
    contains the substring "cumulative" and "daily pnl" the substring
    "daily", and in both files the loader finds nothing, warns and returns
    absent. *)
Lemma load_data_lowercase_counterexample :
  trimmed_names (Mixed.raw_of "PnL" "USDBased") = [u "cumulative pnl"] /\
  contains (u "cumulative") (u "cumulative pnl") = true /\
  Mixed.load_data (u "PnL") (u "USDBased") =
  ([Sample.loaded "PnL" "USDBased";
    StWarning (WARNING_SIGN
               ++ u " No 'Cumulative' or 'Daily' columns found in "
               ++ Sample.records "PnL" "USDBased")],
   inr None) /\
  trimmed_names (Mixed.raw_of "PnL" "CoinBased") = [u "daily pnl"] /\
  contains (u "cumulative") (u "daily pnl") = false /\
  contains (u "daily") (u "daily pnl") = true /\
  Mixed.load_data (u "PnL") (u "CoinBased") =
  ([Sample.loaded "PnL" "CoinBased";
    StWarning (WARNING_SIGN
               ++ u " No 'Cumulative' or 'Daily' columns found in "
               ++ Sample.records "PnL" "CoinBased")],
   inr None).
Proof. repeat split; vm_compute; reflexivity. Qed.

(** A Volume file with the columns "Cumulative A", "Cumulative Daily B"
    and "Daily C": the column selected is "Cumulative Daily B", whose name
    contains "Cumulative", and its values are returned. A Volume file
    whose only value column is "volume daily" gives the warning and
    absent. *)
Lemma load_data_volume_cumulative_counterexample :
  raw_columns (Mixed.raw_of "Volume" "USDBased") =
    [u "Date"; u "Cumulative A"; u "Cumulative Daily B"; u "Daily C"] /\
  contains (u "Cumulative") (u "Cumulative Daily B") = true /\
  selected_label (u "Volume") (trimmed_names (Mixed.raw_of "Volume" "USDBased"))
    = Some (u "Cumulative Daily B") /\
  selected_positions (Mixed.raw_of "Volume" "USDBased")
    (u "Cumulative Daily B") = [2] /\
  Mixed.load_data (u "Volume") (u "USDBased") =
  ([Sample.loaded "Volume" "USDBased"],
   inr (Some {| columns := [u "Volume Daily"];
                rows := [ (Some 20250407%N, [Sample.num 20000]);
                          (Some 20250408%N, [Sample.num 50000]) ] |})) /\
  trimmed_names (Mixed.raw_of "Volume" "CoinBased") = [u "volume daily"] /\
  contains (u "daily") (u "volume daily") = true /\
  Mixed.load_data (u "Volume") (u "CoinBased") =
  ([Sample.loaded "Volume" "CoinBased";
    StWarning (WARNING_SIGN ++ u " No 'Daily' columns found in "
               ++ Sample.records "Volume" "CoinBased")],
   inr None).
Proof. repeat split; vm_compute; reflexivity. Qed.

Lemma load_data_volume_daily_only_witness :
  sample_parsed "Volume" "CoinBased" /\
  In (u "Volume Cumulative")
    (map strip (columns (Sample.dated "Volume" "CoinBased"))) /\
  exists r j dates,
    Sample.load_data (u "Volume") (u "CoinBased") =
    ([Sample.loaded "Volume" "CoinBased"], inr (Some r)) /\
    columns r <> [] /\
    Forall (eq (u "Volume Daily")) (columns r) /\
    selected_positions (Sample.raw_of "Volume" "CoinBased")
      (u "Volume Daily") <> [] /\
    (forall k,
       In k (selected_positions (Sample.raw_of "Volume" "CoinBased")
               (u "Volume Daily")) ->
       mentions_daily
         (nth k (raw_columns (Sample.raw_of "Volume" "CoinBased")) [])
       = true) /\
    positions (str_eqb (u "Date"))
      (raw_columns (Sample.raw_of "Volume" "CoinBased")) = [j] /\
    Sample.to_datetime
      (map (fun row => iloc row j)
         (raw_rows (Sample.raw_of "Volume" "CoinBased"))) = inr dates /\
    rows r =
    map (fun e =>
           (fst e,
            take (selected_positions (Sample.raw_of "Volume" "CoinBased")
                    (u "Volume Daily")) (snd e)))
      (filter (fun e =>
                 defined_at
                   (selected_positions (Sample.raw_of "Volume" "CoinBased")
                      (u "Volume Daily")) (snd e))
         (combine dates (raw_rows (Sample.raw_of "Volume" "CoinBased")))).
Proof.
  assert (P : sample_parsed "Volume" "CoinBased")
    by (repeat split; reflexivity).
  split; [exact P|]. split; [left; reflexivity|].
  exact (load_data_volume_daily_only P).
Defined.

Lemma load_data_date_column_exact_witness :
  Sample.path_exists (Sample.records "PnL" "USDBased") = true /\
  Sample.read_csv (Sample.records "PnL" "USDBased") =
    inr (Sample.raw_of "PnL" "USDBased") /\
  exists r,
    Sample.load_data (u "PnL") (u "USDBased") =
    ([Sample.loaded "PnL" "USDBased"], inr (Some r)) /\
    rows r =
    map (fun e =>
           (fst e,
            take (selected_positions (Sample.raw_of "PnL" "USDBased")
                    (u "PnL Cumulative ($)")) (snd e)))
      (filter (fun e =>
                 defined_at
                   (selected_positions (Sample.raw_of "PnL" "USDBased")
                      (u "PnL Cumulative ($)")) (snd e))
         (combine [Some 20250407%N; Some 20250408%N]
            (raw_rows (Sample.raw_of "PnL" "USDBased")))).
Proof.
  assert (X : Sample.path_exists (Sample.records "PnL" "USDBased") = true)
    by reflexivity.
  assert (R : Sample.read_csv (Sample.records "PnL" "USDBased") =
              inr (Sample.raw_of "PnL" "USDBased")) by reflexivity.
  split; [exact X|]. split; [exact R|].
  exact (proj2 (@load_data_date_column_exact _ _ Sample.path_exists
                  Sample.read_csv Sample.to_datetime (u "PnL")
                  (u "USDBased") (Sample.raw_of "PnL" "USDBased") X R)
           0 [Some 20250407%N; Some 20250408%N] eq_refl eq_refl).
Defined.

Lemma loaded_headline_decimals_witness :
  exists raw df c label spec,
    parsed Sample.path_exists Sample.read_csv Sample.to_datetime
      (u "PnL") (u "USDBased") raw df /\
    {| columns := [u "PnL Cumulative"];
       rows := [ (Some 20250407%N, [Sample.num 1005000]);
                 (Some 20250408%N, [Sample.num 1022500]) ] |}
    = selection (strip_columns df) c label /\
    ((In (u "PnL") [u "PnL"; u "Fee"; u "Funding"] /\
      find mentions_cumulative (map strip (columns df)) = Some c /\
      label = u "PnL" ++ u " Cumulative" /\ spec = u ".2f") \/
     ((u "PnL" = u "Volume" \/
       (In (u "PnL") [u "PnL"; u "Fee"; u "Funding"] /\
        find mentions_cumulative (map strip (columns df)) = None)) /\
      find mentions_daily (map strip (columns df)) = Some c /\
      label = u "PnL" ++ u " Daily" /\ spec = u ".4f")) /\
    (Sample.display_data_block (u "PnL")
       (Some {| columns := [u "PnL Cumulative"];
                rows := [ (Some 20250407%N, [Sample.num 1005000]);
                          (Some 20250408%N, [Sample.num 1022500]) ] |})
       (u "$") =
     ([StInfo (u "No data available for " ++ u "PnL" ++ u ".")], inr tt)
     \/ label = u "PnL Cumulative").
Proof.
  destruct (@loaded_headline_decimals _ _ Sample.path_exists Sample.read_csv
              Sample.to_datetime Sample.format_value (u "PnL") (u "USDBased")
              _ _ load_pnl_usd)
    as (raw & df & c & label & spec & P & S & K & H).
  exists raw, df, c, label, spec.
  split; [exact P|]. split; [exact S|]. split; [exact K|].
  destruct (H (u "PnL") (u "$"))
    as [(_ & X)|(init & e & _ & [(C & _)|[(C & _)|(rest & C & _)]])].
  - left. exact X.
  - right. now injection C.
  - right. now injection C.
  - discriminate C.
Defined.
